(** * Vocabulary CSV conversion and import: a shallow embedding

    The development follows two scripts of the repository:
    - the convert script (CSV parser, [arrayToCSV], field mappers and the
      three conversions), in [Module Convert];
    - the import migration (its own copy of the parser and of the field
      mappers, and the transactional [up] routine), in [Module Migration].

    JavaScript strings are sequences of UTF-16 code units; they are modelled
    as lists of code units ([N]).  Plain objects used as records are finite
    maps from property name to value. *)

From Stdlib Require Import NArith ZArith Ascii String List Lia DecimalNat.
From stdpp Require Import base option list gmap.

Local Open Scope N_scope.

(** ** JavaScript strings *)

Abbreviation jsstring := (list N).

(** Decoding of the UTF-8 bytes of a literal of this file into UTF-16 code
    units, so that the literals of the source can be written as they are. *)
Fixpoint utf16_of_bytes (bs : list N) : jsstring :=
  match bs with
  | [] => []
  | b :: r =>
    if b <? 128 then b :: utf16_of_bytes r
    else if b <? 224 then
      match r with
      | b2 :: r2 =>
        N.lor (N.shiftl (N.land b 31) 6) (N.land b2 63) :: utf16_of_bytes r2
      | [] => [b]
      end
    else if b <? 240 then
      match r with
      | b2 :: b3 :: r3 =>
        N.lor (N.shiftl (N.land b 15) 12)
              (N.lor (N.shiftl (N.land b2 63) 6) (N.land b3 63))
          :: utf16_of_bytes r3
      | _ => [b]
      end
    else
      match r with
      | b2 :: b3 :: b4 :: r4 =>
        let cp := N.lor (N.shiftl (N.land b 7) 18)
                  (N.lor (N.shiftl (N.land b2 63) 12)
                  (N.lor (N.shiftl (N.land b3 63) 6) (N.land b4 63))) in
        let v := cp - 65536 in
        (55296 + N.shiftr v 10) :: (56320 + N.land v 1023) :: utf16_of_bytes r4
      | _ => [b]
      end
  end.

Definition js (s : string) : jsstring :=
  utf16_of_bytes (map N_of_ascii (list_ascii_of_string s)).

(** Code units the parser and the serializer test for. *)
Definition DQUOTE : N := 34.   (* the double quote *)
Definition COMMA : N := 44.
Definition NEWLINE : N := 10.

(** [WhiteSpace] and [LineTerminator] code units, the ones
    [String.prototype.trim] strips. *)
Definition is_ws (c : N) : bool :=
  (c =? 9) || (c =? 10) || (c =? 11) || (c =? 12) || (c =? 13) || (c =? 32)
  || (c =? 160) || (c =? 5760) || ((8192 <=? c) && (c <=? 8202))
  || (c =? 8232) || (c =? 8233) || (c =? 8239) || (c =? 8287)
  || (c =? 12288) || (c =? 65279).

Fixpoint trimStart (s : jsstring) : jsstring :=
  match s with
  | [] => []
  | c :: r => if is_ws c then trimStart r else s
  end.

Definition trimEnd (s : jsstring) : jsstring := rev (trimStart (rev s)).

Definition trim (s : jsstring) : jsstring := trimEnd (trimStart s).

(** A string in a condition is truthy when it is not empty. *)
Definition truthy (s : jsstring) : bool :=
  match s with [] => false | _ => true end.

(** [s === t] on strings. *)
Definition str_eqb (s t : jsstring) : bool := bool_decide (s = t).

(** [content.split(sep)] for a one-unit separator: never empty. *)
Fixpoint split (sep : N) (s : jsstring) : list jsstring :=
  match s with
  | [] => [[]]
  | c :: r =>
    if c =? sep then [] :: split sep r
    else match split sep r with
         | l :: ls => (c :: l) :: ls
         | [] => [[c]]
         end
  end.

(** [lines.join(sep)] for a one-unit separator. *)
Fixpoint join (sep : N) (ls : list jsstring) : jsstring :=
  match ls with
  | [] => []
  | [l] => l
  | l :: ls' => l ++ sep :: join sep ls'
  end.

(** ** Case mapping

    [String.prototype.toUpperCase] maps a string of ASCII code units letter by
    letter.  On a string with a code unit outside ASCII it follows the Unicode
    case tables, which are not part of the program: they are the parameter
    [unicode_upper] of the definitions that depend on them. *)
Definition is_ascii (c : N) : bool := c <? 128.

Definition ascii_upper (c : N) : N :=
  if (97 <=? c) && (c <=? 122) then c - 32 else c.

Definition toUpperCase (unicode_upper : jsstring -> jsstring) (s : jsstring)
  : jsstring :=
  if forallb is_ascii s then map ascii_upper s else unicode_upper s.

(** ** Records

    A row is a plain object whose own properties are strings.  Reading a
    property gives [None] for [undefined].  Assigning to the name
    [__proto__] of a plain object goes to the accessor inherited from
    [Object.prototype], which ignores a string: no own property is made. *)
Abbreviation Row := (gmap (list N) (list N)).

Definition PROTO : jsstring := js "__proto__".

Definition row_set (row : Row) (key value : jsstring) : Row :=
  if str_eqb key PROTO then row else <[key := value]> row.

(** [v || ''] for a string or [undefined]. *)
Definition or_empty (v : option jsstring) : jsstring :=
  match v with
  | Some s => if truthy s then s else []
  | None => []
  end.

(** [v === lit] for a string or [undefined] against a string literal. *)
Definition opt_eqb (v : option jsstring) (lit : jsstring) : bool :=
  match v with
  | Some s => str_eqb s lit
  | None => false
  end.

(** ** Numbers

    [String(n)] for a non-negative integer, and [parseInt(s)] with no radix
    argument.  A number is modelled by its mathematical value: the rounding of
    [parseInt] to a double (beyond 2^53) and the sign of zero are left out. *)
Inductive number := NaN | Num (z : Z).

Fixpoint units_of_uint (d : Decimal.uint) : jsstring :=
  match d with
  | Decimal.Nil => []
  | Decimal.D0 d' => 48 :: units_of_uint d'
  | Decimal.D1 d' => 49 :: units_of_uint d'
  | Decimal.D2 d' => 50 :: units_of_uint d'
  | Decimal.D3 d' => 51 :: units_of_uint d'
  | Decimal.D4 d' => 52 :: units_of_uint d'
  | Decimal.D5 d' => 53 :: units_of_uint d'
  | Decimal.D6 d' => 54 :: units_of_uint d'
  | Decimal.D7 d' => 55 :: units_of_uint d'
  | Decimal.D8 d' => 56 :: units_of_uint d'
  | Decimal.D9 d' => 57 :: units_of_uint d'
  end.

Definition String_of_nat (n : nat) : jsstring := units_of_uint (Nat.to_uint n).

Definition digit_value (radix c : N) : option N :=
  let v := if (48 <=? c) && (c <=? 57) then Some (c - 48)
           else if (97 <=? c) && (c <=? 122) then Some (c - 87)
           else if (65 <=? c) && (c <=? 90) then Some (c - 55)
           else None in
  match v with
  | Some d => if d <? radix then Some d else None
  | None => None
  end.

(** The longest prefix of digits; [None] when there is no digit. *)
Fixpoint parse_digits (radix : N) (s : jsstring) (acc : option N) : option N :=
  match s with
  | [] => acc
  | c :: r =>
    match digit_value radix c with
    | Some d => parse_digits radix r (Some (default 0 acc * radix + d))
    | None => acc
    end
  end.

Definition parseInt (s : jsstring) : number :=
  let s1 := trimStart s in
  let '(sign, s2) := match s1 with
                     | 45 :: r => ((-1)%Z, r)
                     | 43 :: r => (1%Z, r)
                     | _ => (1%Z, s1)
                     end in
  let '(radix, s3) := match s2 with
                      | 48 :: x :: r =>
                        if (x =? 120) || (x =? 88) then (16, r) else (10, s2)
                      | _ => (10, s2)
                      end in
  match parse_digits radix s3 None with
  | None => NaN
  | Some n => Num (sign * Z.of_N n)
  end.

(** ** The datastore collaborator

    The import runs against the entity service of the hosting framework.  A
    stored record is the object handed to [create]; the collection is the list
    of the records created, oldest first. *)
Inductive value :=
| VUndefined
| VString (s : jsstring)
| VNumber (n : number)
| VBoolean (b : bool).

Abbreviation Data := (list (jsstring * value)).
Abbreviation Store := (list (list (jsstring * value))).

(** The property [key] of a data object. *)
Fixpoint data_get (key : jsstring) (data : Data) : value :=
  match data with
  | [] => VUndefined
  | (k, v) :: data' => if str_eqb k key then v else data_get key data'
  end.

(** A computation reads and writes the collection and either returns or
    throws an error (its message). *)
Inductive outcome (A : Type) :=
| Returned (a : A)
| Thrown (e : jsstring).
Arguments Returned {A} a.
Arguments Thrown {A} e.

Definition Action (A : Type) : Type := Store -> outcome A * Store.

Definition ret {A} (a : A) : Action A := fun st => (Returned a, st).

Definition throw {A} (e : jsstring) : Action A := fun st => (Thrown e, st).

Definition bind {A B} (m : Action A) (k : A -> Action B) : Action B :=
  fun st =>
    match m st with
    | (Returned a, st') => k a st'
    | (Thrown e, st') => (Thrown e, st')
    end.

Notation "x <- m ;; k" := (bind m (fun x => k))
  (at level 100, m at next level, right associativity).

(** [try { body } catch (error) { handler }] *)
Definition try_catch {A} (body : Action A) (handler : jsstring -> Action A)
  : Action A :=
  fun st =>
    match body st with
    | (Returned a, st') => (Returned a, st')
    | (Thrown e, st') => handler e st'
    end.

(** [for (const x of xs) { ... }], the loop body updating the local [s]. *)
Fixpoint for_of {A S} (xs : list A) (body : A -> S -> Action S) (s : S)
  : Action S :=
  match xs with
  | [] => ret s
  | x :: xs' => s' <- body x s ;; for_of xs' body s'
  end.

(** Modelled from the spec: [strapi.db.transaction], the transaction scoping
    of the hosting framework, which is not part of the repository: the writes
    of the callback are kept when it returns and rolled back when it throws,
    the error being passed on. *)
Definition transaction {A} (callback : Action A) : Action A :=
  fun st =>
    match callback st with
    | (Returned a, st') => (Returned a, st')
    | (Thrown e, _) => (Thrown e, st)
    end.

(** * The convert script *)
Module Convert.

(** Helper function to clean text. *)
Definition cleanText (text : option jsstring) : jsstring :=
  match text with
  | None => []
  | Some t =>
    if negb (truthy t) || str_eqb t (js "—") || str_eqb t (js "-")
       || str_eqb (trim t) []
    then []
    else trim t
  end.

(** Helper function to map gender. *)
Definition mapGender (linga : option jsstring) : jsstring :=
  if opt_eqb linga (js "m") then js "masculine"
  else if opt_eqb linga (js "f") then js "feminine"
  else if opt_eqb linga (js "n") then js "neuter"
  else [].

(** Helper function to determine subtype. *)
Definition determineSubtype (linga : option jsstring) : jsstring :=
  if opt_eqb linga (js "a") then js "adjective"
  else if opt_eqb linga (js "p") then js "pronoun"
  else if existsb (opt_eqb linga) [js "m"; js "f"; js "n"] then js "noun"
  else [].

(** The loop of [parseLine] from position [i]: [line] is what is left of the
    line from [i] on, [values], [current] and [inQuotes] are the loop's
    variables.  [nextChar] is the head of the rest, when there is one. *)
Fixpoint parseLine_from (line : jsstring) (values : list jsstring)
    (current : jsstring) (inQuotes : bool) : list jsstring :=
  match line with
  | [] => values ++ [trim current]
  | char :: rest =>
    if char =? DQUOTE then
      match rest with
      | nextChar :: rest' =>
        if inQuotes && (nextChar =? DQUOTE)
        then parseLine_from rest' values (current ++ [DQUOTE]) inQuotes
        else parseLine_from rest values current (negb inQuotes)
      | [] => parseLine_from rest values current (negb inQuotes)
      end
    else if (char =? COMMA) && negb inQuotes then
      parseLine_from rest (values ++ [trim current]) [] inQuotes
    else parseLine_from rest values (current ++ [char]) inQuotes
  end.

Definition parseLine (line : jsstring) : list jsstring :=
  parseLine_from line [] [] false.

(** [values.some(val => val && val.trim() !== '')] *)
Definition hasContent (values : list jsstring) : bool :=
  existsb (fun val => truthy val && negb (str_eqb (trim val) [])) values.

(** [headers.forEach((header, index) => { row[header] = values[index] || '' })]
    from position [index] on. *)
Fixpoint forEach_header (headers : list jsstring) (index : nat)
    (values : list jsstring) (row : Row) : Row :=
  match headers with
  | [] => row
  | header :: headers' =>
    forEach_header headers' (S index) values
      (row_set row header (or_empty (values !! index)))
  end.

(** The loop over [lines[1..]], [rows] being the rows pushed so far. *)
Fixpoint parseRows (headers : list jsstring) (lines : list jsstring)
    (rows : list Row) : list Row :=
  match lines with
  | [] => rows
  | line :: lines' =>
    let values := parseLine line in
    if negb (hasContent values) then parseRows headers lines' rows
    else parseRows headers lines' (rows ++ [forEach_header headers 0 values ∅])
  end.

(** Proper CSV parser that handles quoted fields. *)
Definition parseCSV (content : jsstring) : list Row :=
  let lines := List.filter (fun line => truthy (trim line)) (split NEWLINE content) in
  match lines with
  | [] => []
  | line0 :: lines' => parseRows (parseLine line0) lines' []
  end.

(** [String(value).replace(...)]: every double quote is doubled. *)
Fixpoint escapeQuotes (value : jsstring) : jsstring :=
  match value with
  | [] => []
  | c :: r =>
    if c =? DQUOTE then DQUOTE :: DQUOTE :: escapeQuotes r
    else c :: escapeQuotes r
  end.

Definition quoteField (value : jsstring) : jsstring :=
  DQUOTE :: escapeQuotes value ++ [DQUOTE].

(** Convert array of objects to CSV with proper escaping. *)
Definition arrayToCSV (data : list Row) (headers : list jsstring) : jsstring :=
  let csvLines :=
    [join COMMA headers]
    ++ map (fun row =>
              join COMMA
                (map (fun header => quoteField (or_empty (row !! header)))
                     headers))
           data in
  join NEWLINE csvLines.

(** Object literals of the conversions: the listed properties, in order. *)
Definition object (props : list (jsstring * jsstring)) : Row :=
  list_to_map props.

Section Conversions.

(** The Unicode part of [toUpperCase]. *)
Variable unicode_upper : jsstring -> jsstring.

(** Helper function to map voice. *)
Definition mapVoice (pada : option jsstring) : jsstring :=
  let padaUpper := toUpperCase unicode_upper <$> pada in
  if opt_eqb padaUpper (js "P") then js "parasmaipada"
  else if opt_eqb padaUpper (js "A") then js "atmanepada"
  else if opt_eqb padaUpper (js "U") then js "ubhayapada"
  else [].

(** Convert Verbs: the callback of [verbsRows.map]. *)
Definition convertVerb (row : Row) (index : nat) : Row :=
  object
    [ (js "word_type", js "verb");
      (js "word_devanagari", cleanText (row !! js "धातु"));
      (js "root_devanagari", cleanText (row !! js "धातु"));
      (js "verb_class",
         if truthy (or_empty (row !! js "गण"))
            && negb (opt_eqb (row !! js "गण") (js "-"))
         then or_empty (row !! js "गण") else []);
      (js "voice", mapVoice (row !! js "पद"));
      (js "standard_form", cleanText (row !! js "तिङन्तं लट्"));
      (js "meaning_pt", cleanText (row !! js "Portugués"));
      (js "meaning_es", cleanText (row !! js "Español"));
      (js "meaning_en", cleanText (row !! js "Inglés"));
      (js "past_imperfect", cleanText (row !! js "लङ् / Pasado Imperfecto"));
      (js "potential", cleanText (row !! js "लिङ् / Potencial"));
      (js "imperative", cleanText (row !! js "लोट् / Imperativo"));
      (js "past_participle", cleanText (row !! js "लिट् / Pasado Perfecto"));
      (js "gerund", cleanText (row !! js "क्त्वा / Gerundio"));
      (js "infinitive", cleanText (row !! js "तुमुन् / Infinitivo"));
      (js "ppp", cleanText (row !! js "क्त / PPP"));
      (js "itrans", cleanText (row !! js "ITRANS"));
      (js "iast", cleanText (row !! js "IATS"));
      (js "harvard_kyoto", cleanText (row !! js "Harvard-Kyoto"));
      (js "is_published", js "true");
      (js "order_index", String_of_nat (index + 1)) ].

Definition convertedVerbs (verbsRows : list Row) : list Row :=
  imap (fun index row => convertVerb row index) verbsRows.

Definition verbsHeaders : list jsstring :=
  [ js "word_type"; js "word_devanagari"; js "root_devanagari";
    js "verb_class"; js "voice";
    js "standard_form"; js "meaning_pt"; js "meaning_es"; js "meaning_en";
    js "past_imperfect"; js "potential"; js "imperative"; js "past_participle";
    js "gerund"; js "infinitive"; js "ppp"; js "itrans"; js "iast";
    js "harvard_kyoto"; js "is_published"; js "order_index" ].

(** The text written to [verbs-for-import.csv] for the content of the verbs
    spreadsheet. *)
Definition verbsCSV (verbsContent : jsstring) : jsstring :=
  arrayToCSV (convertedVerbs (parseCSV verbsContent)) verbsHeaders.

(** Convert Substantives. *)
Definition convertSubstantive (row : Row) (index : nat) : Row :=
  let linga := row !! js "लिङ्ग" in
  object
    [ (js "word_type", js "substantive");
      (js "word_subtype", determineSubtype linga);
      (js "word_devanagari", cleanText (row !! js "सुबन्तं"));
      (js "gender", mapGender linga);
      (js "meaning_pt", cleanText (row !! js "Portugués"));
      (js "meaning_es", cleanText (row !! js "Español"));
      (js "meaning_en", cleanText (row !! js "Inglés"));
      (js "itrans", cleanText (row !! js "ITRANS"));
      (js "iast", cleanText (row !! js "IATS"));
      (js "harvard_kyoto", cleanText (row !! js "Harvard-Kyoto"));
      (js "is_published", js "true");
      (js "order_index", String_of_nat (index + 1)) ].

Definition convertedSubstantives (substantivesRows : list Row) : list Row :=
  imap (fun index row => convertSubstantive row index) substantivesRows.

Definition substantivesHeaders : list jsstring :=
  [ js "word_type"; js "word_subtype"; js "word_devanagari"; js "gender";
    js "meaning_pt"; js "meaning_es"; js "meaning_en";
    js "itrans"; js "iast"; js "harvard_kyoto"; js "is_published";
    js "order_index" ].

Definition substantivesCSV (substantivesContent : jsstring) : jsstring :=
  arrayToCSV (convertedSubstantives (parseCSV substantivesContent))
    substantivesHeaders.

(** Convert Indeclinables. *)
Definition convertIndeclinable (row : Row) (index : nat) : Row :=
  object
    [ (js "word_type", js "indeclinable");
      (js "word_devanagari", cleanText (row !! js "अव्यय"));
      (js "grammatical_case", cleanText (row !! js "विभक्ति"));
      (js "meaning_pt", cleanText (row !! js "Portugues"));
      (js "meaning_es", cleanText (row !! js "Español"));
      (js "meaning_en", cleanText (row !! js "Inglés"));
      (js "itrans", cleanText (row !! js "ITRANS"));
      (js "iast", cleanText (row !! js "IATS"));
      (js "harvard_kyoto", cleanText (row !! js "Harvard-Kyoto"));
      (js "is_published", js "true");
      (js "order_index", String_of_nat (index + 1)) ].

Definition convertedIndeclinables (indeclinablesRows : list Row) : list Row :=
  imap (fun index row => convertIndeclinable row index) indeclinablesRows.

Definition indeclinablesHeaders : list jsstring :=
  [ js "word_type"; js "word_devanagari"; js "grammatical_case";
    js "meaning_pt"; js "meaning_es"; js "meaning_en";
    js "itrans"; js "iast"; js "harvard_kyoto"; js "is_published";
    js "order_index" ].

Definition indeclinablesCSV (indeclinablesContent : jsstring) : jsstring :=
  arrayToCSV (convertedIndeclinables (parseCSV indeclinablesContent))
    indeclinablesHeaders.

(** The output directory after the script has run on the three spreadsheets:
    the three files written, by name. *)
Definition written (verbsContent substantivesContent indeclinablesContent
                    name : jsstring) : option jsstring :=
  if str_eqb name (js "verbs-for-import.csv")
  then Some (verbsCSV verbsContent)
  else if str_eqb name (js "substantives-for-import.csv")
  then Some (substantivesCSV substantivesContent)
  else if str_eqb name (js "indeclinables-for-import.csv")
  then Some (indeclinablesCSV indeclinablesContent)
  else None.

End Conversions.

End Convert.

(** The message of the error of a file that cannot be read. *)
Definition ENOENT : jsstring := js "ENOENT: no such file or directory".

(** * The import migration *)
Module Migration.

(** Helper functions; the empty value is [undefined] here. *)
Definition cleanText (text : option jsstring) : option jsstring :=
  match text with
  | None => None
  | Some t =>
    if negb (truthy t) || str_eqb t (js "—") || str_eqb t (js "-")
       || str_eqb (trim t) []
    then None
    else Some (trim t)
  end.

Definition mapGender (linga : option jsstring) : option jsstring :=
  if opt_eqb linga (js "m") then Some (js "masculine")
  else if opt_eqb linga (js "f") then Some (js "feminine")
  else if opt_eqb linga (js "n") then Some (js "neuter")
  else None.

Definition determineSubtype (linga : option jsstring) : option jsstring :=
  if opt_eqb linga (js "a") then Some (js "adjective")
  else if opt_eqb linga (js "p") then Some (js "pronoun")
  else if existsb (opt_eqb linga) [js "m"; js "f"; js "n"] then Some (js "noun")
  else None.

Definition mapVoice (unicode_upper : jsstring -> jsstring)
    (pada : option jsstring) : option jsstring :=
  let padaUpper := toUpperCase unicode_upper <$> pada in
  if opt_eqb padaUpper (js "P") then Some (js "parasmaipada")
  else if opt_eqb padaUpper (js "A") then Some (js "atmanepada")
  else if opt_eqb padaUpper (js "U") then Some (js "ubhayapada")
  else None.

(** Parse CSV properly handling quoted fields: the loop of [parseLine], as in
    the convert script. *)
Fixpoint parseLine_from (line : jsstring) (values : list jsstring)
    (current : jsstring) (inQuotes : bool) : list jsstring :=
  match line with
  | [] => values ++ [trim current]
  | char :: rest =>
    if char =? DQUOTE then
      match rest with
      | nextChar :: rest' =>
        if inQuotes && (nextChar =? DQUOTE)
        then parseLine_from rest' values (current ++ [DQUOTE]) inQuotes
        else parseLine_from rest values current (negb inQuotes)
      | [] => parseLine_from rest values current (negb inQuotes)
      end
    else if (char =? COMMA) && negb inQuotes then
      parseLine_from rest (values ++ [trim current]) [] inQuotes
    else parseLine_from rest values (current ++ [char]) inQuotes
  end.

Definition parseLine (line : jsstring) : list jsstring :=
  parseLine_from line [] [] false.

(** [values.some(val => val && val.trim() !== '')] *)
Definition hasContent (values : list jsstring) : bool :=
  existsb (fun val => truthy val && negb (str_eqb (trim val) [])) values.

(** [headers.forEach((header, index) => { row[header] = values[index] || '' })]
    from position [index] on. *)
Fixpoint forEach_header (headers : list jsstring) (index : nat)
    (values : list jsstring) (row : Row) : Row :=
  match headers with
  | [] => row
  | header :: headers' =>
    forEach_header headers' (S index) values
      (row_set row header (or_empty (values !! index)))
  end.

(** The loop over [lines[1..]], [rows] being the rows pushed so far. *)
Fixpoint parseRows (headers : list jsstring) (lines : list jsstring)
    (rows : list Row) : list Row :=
  match lines with
  | [] => rows
  | line :: lines' =>
    let values := parseLine line in
    if negb (hasContent values) then parseRows headers lines' rows
    else parseRows headers lines' (rows ++ [forEach_header headers 0 values ∅])
  end.

Definition parseCSV (content : jsstring) : list Row :=
  let lines := List.filter (fun line => truthy (trim line)) (split NEWLINE content) in
  match lines with
  | [] => []
  | line0 :: lines' => parseRows (parseLine line0) lines' []
  end.

(** A string or [undefined] as a property value. *)
Definition val (v : option jsstring) : value :=
  match v with
  | Some s => VString s
  | None => VUndefined
  end.

(** [v ? parseInt(v) : undefined] *)
Definition parseInt_or_undefined (v : option jsstring) : value :=
  if truthy (or_empty v) then VNumber (parseInt (or_empty v)) else VUndefined.

(** [!row.word_devanagari || row.word_devanagari.trim() === ''] *)
Definition emptyDevanagari (row : Row) : bool :=
  match row !! js "word_devanagari" with
  | None => true
  | Some w => negb (truthy w) || str_eqb (trim w) []
  end.

(** The [data] of the three calls of [create]. *)
Definition verbData (row : Row) : Data :=
  [ (js "word_type", val (row !! js "word_type"));
    (js "word_devanagari", val (row !! js "word_devanagari"));
    (js "root_devanagari", val (cleanText (row !! js "root_devanagari")));
    (js "verb_class", parseInt_or_undefined (row !! js "verb_class"));
    (js "voice", val (cleanText (row !! js "voice")));
    (js "standard_form", val (cleanText (row !! js "standard_form")));
    (js "meaning_pt", val (cleanText (row !! js "meaning_pt")));
    (js "meaning_es", val (cleanText (row !! js "meaning_es")));
    (js "meaning_en", val (cleanText (row !! js "meaning_en")));
    (js "past_imperfect", val (cleanText (row !! js "past_imperfect")));
    (js "potential", val (cleanText (row !! js "potential")));
    (js "imperative", val (cleanText (row !! js "imperative")));
    (js "past_participle", val (cleanText (row !! js "past_participle")));
    (js "gerund", val (cleanText (row !! js "gerund")));
    (js "infinitive", val (cleanText (row !! js "infinitive")));
    (js "ppp", val (cleanText (row !! js "ppp")));
    (js "itrans", val (cleanText (row !! js "itrans")));
    (js "iast", val (cleanText (row !! js "iast")));
    (js "harvard_kyoto", val (cleanText (row !! js "harvard_kyoto")));
    (js "is_published", VBoolean (opt_eqb (row !! js "is_published") (js "true")));
    (js "order_index", parseInt_or_undefined (row !! js "order_index")) ].

Definition substantiveData (row : Row) : Data :=
  [ (js "word_type", val (row !! js "word_type"));
    (js "word_subtype", val (cleanText (row !! js "word_subtype")));
    (js "word_devanagari", val (row !! js "word_devanagari"));
    (js "gender", val (cleanText (row !! js "gender")));
    (js "meaning_pt", val (cleanText (row !! js "meaning_pt")));
    (js "meaning_es", val (cleanText (row !! js "meaning_es")));
    (js "meaning_en", val (cleanText (row !! js "meaning_en")));
    (js "itrans", val (cleanText (row !! js "itrans")));
    (js "iast", val (cleanText (row !! js "iast")));
    (js "harvard_kyoto", val (cleanText (row !! js "harvard_kyoto")));
    (js "is_published", VBoolean (opt_eqb (row !! js "is_published") (js "true")));
    (js "order_index", parseInt_or_undefined (row !! js "order_index")) ].

Definition indeclinableData (row : Row) : Data :=
  [ (js "word_type", val (row !! js "word_type"));
    (js "word_devanagari", val (row !! js "word_devanagari"));
    (js "grammatical_case", val (cleanText (row !! js "grammatical_case")));
    (js "meaning_pt", val (cleanText (row !! js "meaning_pt")));
    (js "meaning_es", val (cleanText (row !! js "meaning_es")));
    (js "meaning_en", val (cleanText (row !! js "meaning_en")));
    (js "itrans", val (cleanText (row !! js "itrans")));
    (js "iast", val (cleanText (row !! js "iast")));
    (js "harvard_kyoto", val (cleanText (row !! js "harvard_kyoto")));
    (js "is_published", VBoolean (opt_eqb (row !! js "is_published") (js "true")));
    (js "order_index", parseInt_or_undefined (row !! js "order_index")) ].

(** The counters of the run. *)
Record Stats := { verbs : nat; substantives : nat; indeclinables : nat }.

Section Up.

(** The two collaborators of the run.  [readFile name] is the content of the
    converted file [name], [None] when reading it throws.
    [create_error st data] is the message of the error that
    [strapi.entityService.create] throws for [data] on the collection [st],
    [None] when the record is created. *)
Variable readFile : jsstring -> option jsstring.
Variable create_error : Store -> Data -> option jsstring.

Definition readFileSync (name : jsstring) : Action jsstring :=
  match readFile name with
  | Some content => ret content
  | None => throw ENOENT
  end.

Definition create (data : Data) : Action unit :=
  fun st =>
    match create_error st data with
    | Some e => (Thrown e, st)
    | None => (Returned tt, st ++ [data])
    end.

(** Import Verbs. *)
Definition importVerbs (stats : Stats) : Action Stats :=
  try_catch
    (fileContent <- readFileSync (js "verbs-for-import.csv") ;;
     let rows := parseCSV fileContent in
     for_of rows
       (fun row stats =>
          (* Skip if word_devanagari is empty *)
          if emptyDevanagari row then ret stats
          else
            _ <- create (verbData row) ;;
            ret {| verbs := S (verbs stats);
                   substantives := substantives stats;
                   indeclinables := indeclinables stats |})
       stats)
    (fun error => throw error).

(** Import Substantives. *)
Definition importSubstantives (stats : Stats) : Action Stats :=
  try_catch
    (fileContent <- readFileSync (js "substantives-for-import.csv") ;;
     let rows := parseCSV fileContent in
     for_of rows
       (fun row stats =>
          if emptyDevanagari row then ret stats
          else
            _ <- create (substantiveData row) ;;
            ret {| verbs := verbs stats;
                   substantives := S (substantives stats);
                   indeclinables := indeclinables stats |})
       stats)
    (fun error => throw error).

(** Import Indeclinables. *)
Definition importIndeclinables (stats : Stats) : Action Stats :=
  try_catch
    (fileContent <- readFileSync (js "indeclinables-for-import.csv") ;;
     let rows := parseCSV fileContent in
     for_of rows
       (fun row stats =>
          if emptyDevanagari row then ret stats
          else
            _ <- create (indeclinableData row) ;;
            ret {| verbs := verbs stats;
                   substantives := substantives stats;
                   indeclinables := S (indeclinables stats) |})
       stats)
    (fun error => throw error).

(** The migration: the three imports inside one transaction.  The value
    returned stands for the counts of the printed summary. *)
Definition up : Action Stats :=
  transaction
    (let stats := {| verbs := 0; substantives := 0; indeclinables := 0 |} in
     stats <- importVerbs stats ;;
     stats <- importSubstantives stats ;;
     stats <- importIndeclinables stats ;;
     ret stats).

End Up.

End Migration.

(** * Notions of the statements *)

(** When [cleanText] gives its empty value. *)
Definition cleans_to_empty (text : option jsstring) : Prop :=
  text = None \/ text = Some (js "—") \/ text = Some (js "-")
  \/ exists t, text = Some t /\ trim t = [].

(** The values [arrayToCSV] writes for a row: [row[header] || ''] for every
    header. *)
Definition rowValues (headers : list jsstring) (row : Row) : list jsstring :=
  map (fun header => or_empty (row !! header)) headers.

(** A row the round trip gives back: its fields are the headers, every value
    is trimmed and has no newline, and some value is not empty. *)
Definition plainRow (headers : list jsstring) (row : Row) : Prop :=
  dom row = list_to_set headers
  /\ (forall k v, row !! k = Some v -> trim v = v /\ ~ In NEWLINE v)
  /\ (exists k v, row !! k = Some v /\ v <> []).

(** Headers the round trip gives back: trimmed, without comma, quote or
    newline, and not the name [__proto__]. *)
Definition plainHeader (h : jsstring) : Prop :=
  trim h = h /\ ~ In COMMA h /\ ~ In DQUOTE h /\ ~ In NEWLINE h /\ h <> PROTO.

(** The data line [arrayToCSV] writes for a row. *)
Definition dataLine (headers : list jsstring) (row : Row) : jsstring :=
  join COMMA (map Convert.quoteField (rowValues headers row)).

(** A value that [arrayToCSV] and the parser give back as it is. *)
Definition cleanValue (v : jsstring) : Prop := trim v = v /\ ~ In NEWLINE v.

Definition cleanRow (row : Row) : Prop :=
  forall k v, row !! k = Some v -> cleanValue v.

(** The positions, counted from [k], of the rows whose cleaned [key] field is
    not empty. *)
Fixpoint keptPositions (key : jsstring) (k : nat) (rows : list Row)
  : list nat :=
  match rows with
  | [] => []
  | row :: rows' =>
    if truthy (Convert.cleanText (row !! key))
    then k :: keptPositions key (S k) rows'
    else keptPositions key (S k) rows'
  end.

(** A record with a word: its [word_devanagari] is a string that is not
    blank. *)
Definition hasDevanagari (data : Data) : Prop :=
  exists w, data_get (js "word_devanagari") data = VString w /\ trim w <> [].

(** ** The insertions of a run *)

Module Run.
Import Migration.

(** The rows of a converted file that the loop does not skip, as the data
    handed to [create]. *)
Definition toInsert (data_of : Row -> Data) (content : jsstring) : list Data :=
  map data_of
    (List.filter (fun row => negb (emptyDevanagari row)) (parseCSV content)).

Section Run.

Variable readFile : jsstring -> option jsstring.
Variable create_error : Store -> Data -> option jsstring.

(** The insertions of a run in order, up to the first file that cannot be
    read. *)
Definition planned : list Data :=
  match readFile (js "verbs-for-import.csv") with
  | None => []
  | Some cv =>
    toInsert verbData cv ++
    match readFile (js "substantives-for-import.csv") with
    | None => []
    | Some cs =>
      toInsert substantiveData cs ++
      match readFile (js "indeclinables-for-import.csv") with
      | None => []
      | Some ci => toInsert indeclinableData ci
      end
    end
  end.

(** Every insertion of [p], made in order from the collection [st], is
    accepted. *)
Definition accepted (st : Store) (p : list Data) : Prop :=
  forall p1 d p2, p = p1 ++ d :: p2 -> create_error (st ++ p1) d = None.

(** The insertions [ds] made in order: the first error, if any, and the
    collection reached. *)
Fixpoint run_creates (ds : list Data) (st : Store)
  : option jsstring * Store :=
  match ds with
  | [] => (None, st)
  | d :: ds' =>
    match create_error st d with
    | Some e => (Some e, st)
    | None => run_creates ds' (st ++ [d])
    end
  end.

End Run.
End Run.

(** * The cleanup migration, and [down] of the import migration *)
Module Cleanup.

(** The entries of the collection with their ids, as [findMany] returns them
    and [delete] addresses them. *)
Abbreviation Collection := (list (N * Data)).

Definition Action (A : Type) : Type := Collection -> outcome A * Collection.

Definition ret {A} (a : A) : Action A := fun coll => (Returned a, coll).

Definition bind {A B} (m : Action A) (k : A -> Action B) : Action B :=
  fun coll =>
    match m coll with
    | (Returned a, coll') => k a coll'
    | (Thrown e, coll') => (Thrown e, coll')
    end.

(** [for (const x of xs) { ... }], the loop body updating the local [s]. *)
Fixpoint for_of {A S} (xs : list A) (body : A -> S -> Action S) (s : S)
  : Action S :=
  match xs with
  | [] => ret s
  | x :: xs' => bind (body x s) (for_of xs' body)
  end.

(** Modelled from the spec: [strapi.db.transaction], as for the import: the
    writes of the callback are kept when it returns and rolled back when it
    throws. *)
Definition transaction {A} (callback : Action A) : Action A :=
  fun coll =>
    match callback coll with
    | (Returned a, coll') => (Returned a, coll')
    | (Thrown e, _) => (Thrown e, coll)
    end.

Section Up.

(** [delete_error coll id] is the message of the error that
    [strapi.entityService.delete] throws for [id] on the collection [coll],
    [None] when it deletes. *)
Variable delete_error : Collection -> N -> option jsstring.

(** [findMany] with [limit: -1]: all the entries. *)
Definition findMany : Action Collection := fun coll => (Returned coll, coll).

Definition delete (id : N) : Action unit :=
  fun coll =>
    match delete_error coll id with
    | Some e => (Thrown e, coll)
    | None =>
      (Returned tt, List.filter (fun entry => negb (fst entry =? id)) coll)
    end.

(** [up] of the cleanup migration; the value returned stands for the number
    printed, the counter [deleted]. *)
Definition up : Action nat :=
  transaction
    (bind findMany (fun entries =>
     for_of entries
       (fun entry deleted => bind (delete (fst entry)) (fun _ => ret (S deleted)))
       0%nat)).

(** [down] of the cleanup migration: nothing to roll back. *)
Definition down : Action unit := ret tt.

(** [down] of the import migration; the number printed is [entries.length]. *)
Definition importDown : Action nat :=
  transaction
    (bind findMany (fun entries =>
     bind (for_of entries (fun entry (_ : unit) => delete (fst entry)) tt)
          (fun _ => ret (length entries)))).

End Up.

End Cleanup.

(** ** More notions of the statements *)


(** The lines the parser keeps: those that are not blank. *)
Definition nonBlankLines (content : jsstring) : list jsstring :=
  List.filter (fun line => truthy (trim line)) (split NEWLINE content).

(** The data lines the parser makes a record of. *)
Definition contentLines (lines : list jsstring) : list jsstring :=
  List.filter (fun line => Convert.hasContent (Convert.parseLine line)) lines.

(** The empty value of the convert script as the one of the migration. *)
Definition undefined_if_empty (s : jsstring) : option jsstring :=
  if truthy s then Some s else None.

(** The text columns of the three conversions: the field of the converted
    record and the column of the spreadsheet it is cleaned from. *)
Definition verbTextFields : list (jsstring * jsstring) :=
  [ (js "root_devanagari", js "धातु");
    (js "standard_form", js "तिङन्तं लट्");
    (js "meaning_pt", js "Portugués");
    (js "meaning_es", js "Español");
    (js "meaning_en", js "Inglés");
    (js "past_imperfect", js "लङ् / Pasado Imperfecto");
    (js "potential", js "लिङ् / Potencial");
    (js "imperative", js "लोट् / Imperativo");
    (js "past_participle", js "लिट् / Pasado Perfecto");
    (js "gerund", js "क्त्वा / Gerundio");
    (js "infinitive", js "तुमुन् / Infinitivo");
    (js "ppp", js "क्त / PPP");
    (js "itrans", js "ITRANS");
    (js "iast", js "IATS");
    (js "harvard_kyoto", js "Harvard-Kyoto") ].

Definition substantiveTextFields : list (jsstring * jsstring) :=
  [ (js "meaning_pt", js "Portugués");
    (js "meaning_es", js "Español");
    (js "meaning_en", js "Inglés");
    (js "itrans", js "ITRANS");
    (js "iast", js "IATS");
    (js "harvard_kyoto", js "Harvard-Kyoto") ].

Definition indeclinableTextFields : list (jsstring * jsstring) :=
  [ (js "grammatical_case", js "विभक्ति");
    (js "meaning_pt", js "Portugues");
    (js "meaning_es", js "Español");
    (js "meaning_en", js "Inglés");
    (js "itrans", js "ITRANS");
    (js "iast", js "IATS");
    (js "harvard_kyoto", js "Harvard-Kyoto") ].

(** * Tactics *)

Create HintDb clean.

(** Closes [~ In c s] for a code unit and a string that are both given. *)
Ltac not_in_string :=
  let Hin := fresh "Hin" in
  intros Hin; vm_compute in Hin;
  repeat (destruct Hin as [Hin | Hin]; [discriminate Hin |]); exact Hin.

(** Closes [cleanValue] of a given string. *)
Ltac clean_constant := split; [reflexivity | not_in_string].

(** Closes [Forall] over the properties of an object literal. *)
Ltac clean_props :=
  repeat (apply Forall_cons_2;
          [simpl; first [solve [auto with clean] | clean_constant] |]);
  apply Forall_nil_2.

(** Closes [Forall plainHeader] for a given list of headers. *)
Ltac plain_headers :=
  repeat (apply Forall_cons_2;
          [unfold plainHeader; split; [| split; [| split; [| split]]];
           [reflexivity | not_in_string | not_in_string | not_in_string
            | discriminate] |]);
  apply Forall_nil_2.

(** Goes through the pairs of a given list of fields. *)
Ltac each_field Hin :=
  repeat (apply elem_of_cons in Hin as [Hin | Hin];
          [injection Hin as -> -> |]);
  [.. | inversion Hin].

(** * Properties *)

(** ** Strings *)

Lemma str_eqb_eq (s t : jsstring) : str_eqb s t = true <-> s = t.
Proof. unfold str_eqb. apply bool_decide_eq_true. Qed.

Lemma str_eqb_neq (s t : jsstring) : str_eqb s t = false <-> s <> t.
Proof. unfold str_eqb. apply bool_decide_eq_false. Qed.

Lemma truthy_false (s : jsstring) : truthy s = false <-> s = [].
Proof. destruct s; simpl; split; congruence. Qed.

Lemma opt_eqb_eq (v : option jsstring) (lit : jsstring) :
  opt_eqb v lit = true <-> v = Some lit.
Proof.
  destruct v as [s|]; simpl.
  - rewrite str_eqb_eq. split; congruence.
  - split; congruence.
Qed.

Lemma opt_eqb_neq (v : option jsstring) (lit : jsstring) :
  opt_eqb v lit = false <-> v <> Some lit.
Proof.
  rewrite <- opt_eqb_eq. destruct (opt_eqb v lit); split; congruence.
Qed.

(** ** The field mappers *)

Lemma cleanText_guard (t : jsstring) :
  negb (truthy t) || str_eqb t (js "—") || str_eqb t (js "-")
    || str_eqb (trim t) [] = true
  <-> cleans_to_empty (Some t).
Proof.
  unfold cleans_to_empty.
  rewrite !orb_true_iff, negb_true_iff, truthy_false, !str_eqb_eq.
  split.
  - intros [[[-> | ->] | ->] | Ht]; eauto 6.
  - intros [Hn | [He | [He | (t' & He & Ht)]]]; try discriminate;
      inversion He; subst; eauto.
Qed.

(** C8.  [cleanText] gives its empty value ([''] in the convert script,
    [undefined] in the migration) exactly when the text is absent, is one of
    the dash placeholders or is blank after trimming, and the trimmed text
    otherwise; the five sample inputs of the specification behave so. *)
Theorem cleanText_spec :
  (forall text : option jsstring,
     (Convert.cleanText text = [] <-> cleans_to_empty text)
     /\ (Migration.cleanText text = None <-> cleans_to_empty text)
     /\ (~ cleans_to_empty text ->
         exists t, text = Some t /\ Convert.cleanText text = trim t
                   /\ Migration.cleanText text = Some (trim t)))
  /\ Convert.cleanText (Some (js "—")) = []
  /\ Convert.cleanText (Some []) = []
  /\ Convert.cleanText (Some (js "   ")) = []
  /\ Convert.cleanText None = []
  /\ Convert.cleanText (Some (js " ram ")) = js "ram"
  /\ Migration.cleanText (Some (js "—")) = None
  /\ Migration.cleanText (Some []) = None
  /\ Migration.cleanText (Some (js "   ")) = None
  /\ Migration.cleanText None = None
  /\ Migration.cleanText (Some (js " ram ")) = Some (js "ram").
Proof.
  split; [| repeat split; reflexivity].
  intros [t|].
  - unfold Convert.cleanText, Migration.cleanText.
    pose proof (cleanText_guard t) as Hg.
    destruct (negb (truthy t) || str_eqb t (js "—") || str_eqb t (js "-")
              || str_eqb (trim t) []) eqn:Hb.
    + assert (cleans_to_empty (Some t)) by (apply Hg; reflexivity).
      repeat split; auto; intros; contradiction.
    + assert (Hne : ~ cleans_to_empty (Some t))
        by (intros Hc; apply Hg in Hc; discriminate).
      apply orb_false_iff in Hb as [_ Htrim]. apply str_eqb_neq in Htrim.
      repeat split; try (intros; contradiction); try discriminate; eauto.
  - simpl. unfold cleans_to_empty. repeat split; auto.
    intros Hn; exfalso; apply Hn; auto.
Qed.

Lemma cleanText_spec_witness :
  exists t,
    Some (js " ram ") = Some t
    /\ Convert.cleanText (Some (js " ram ")) = trim t
    /\ Migration.cleanText (Some (js " ram ")) = Some (trim t).
Proof.
  apply (proj1 cleanText_spec (Some (js " ram "))).
  intros [H | [H | [H | (t & Ht & Htrim)]]]; try discriminate H.
  injection Ht as <-. discriminate Htrim.
Defined.

(** C10.  A gender code that [mapGender] maps is one that
    [determineSubtype] classifies as a noun, so a converted substantive with a
    gender has the subtype noun. *)
Theorem gender_implies_noun :
  (forall x : option jsstring,
     Convert.mapGender x <> [] -> Convert.determineSubtype x = js "noun")
  /\ (forall (substantivesRows : list Row) (record : Row),
        record ∈ Convert.convertedSubstantives substantivesRows ->
        record !! js "gender" <> Some [] ->
        record !! js "word_subtype" = Some (js "noun")).
Proof.
  assert (Hcode : forall x : option jsstring,
            Convert.mapGender x <> [] -> Convert.determineSubtype x = js "noun").
  { intros x. unfold Convert.mapGender, Convert.determineSubtype. simpl existsb.
    destruct (opt_eqb x (js "m")) eqn:Hm.
    - apply opt_eqb_eq in Hm; subst x. reflexivity.
    - destruct (opt_eqb x (js "f")) eqn:Hf.
      + apply opt_eqb_eq in Hf; subst x. reflexivity.
      + destruct (opt_eqb x (js "n")) eqn:Hn.
        * apply opt_eqb_eq in Hn; subst x. reflexivity.
        * congruence. }
  split; [exact Hcode |].
  intros rows record Hin Hgender.
  unfold Convert.convertedSubstantives in Hin.
  apply list_elem_of_lookup in Hin as [i Hi].
  rewrite list_lookup_imap in Hi.
  destruct (rows !! i) as [row|]; [| discriminate].
  injection Hi as <-.
  assert (Hg : Convert.convertSubstantive row i !! js "gender"
               = Some (Convert.mapGender (row !! js "लिङ्ग")))
    by reflexivity.
  assert (Hs : Convert.convertSubstantive row i !! js "word_subtype"
               = Some (Convert.determineSubtype (row !! js "लिङ्ग")))
    by reflexivity.
  rewrite Hs. f_equal. apply Hcode.
  intros He. apply Hgender. rewrite Hg, He. reflexivity.
Qed.

Lemma gender_implies_noun_witness :
  Convert.mapGender (Some (js "f")) <> []
  /\ Convert.determineSubtype (Some (js "f")) = js "noun".
Proof.
  split; [discriminate |].
  apply (proj1 gender_implies_noun). discriminate.
Defined.

(** ** [mapVoice] *)

Lemma ascii_upper_inv (c u : N) :
  ascii_upper c = u -> 65 <= u <= 90 -> c = u \/ c = u + 32.
Proof.
  unfold ascii_upper. intros H Hu.
  destruct ((97 <=? c) && (c <=? 122)) eqn:Hc.
  - apply andb_true_iff in Hc as [H1 H2].
    apply N.leb_le in H1, H2. right. lia.
  - left. exact H.
Qed.

Section MapVoice.

Variable unicode_upper : jsstring -> jsstring.

(** What the Unicode tables give for the three letters: no string with a code
    unit outside ASCII has [P], [A] or [U] as its upper case. *)
Hypothesis unicode_upper_letters :
  forall s, forallb is_ascii s = false ->
            unicode_upper s <> js "P" /\ unicode_upper s <> js "A"
            /\ unicode_upper s <> js "U".

Lemma toUpperCase_letter (s : jsstring) (u : N) :
  In u [80; 65; 85] ->
  toUpperCase unicode_upper s = [u] <-> s = [u] \/ s = [u + 32].
Proof.
  intros Hu. unfold toUpperCase.
  destruct (forallb is_ascii s) eqn:Hs.
  - split.
    + destruct s as [| c [| c' s']]; try discriminate.
      simpl. intros [= Hc]. apply ascii_upper_inv in Hc.
      * destruct Hc as [-> | ->]; auto.
      * simpl in Hu. lia.
    + simpl in Hu.
      intros [-> | ->]; destruct Hu as [<- | [<- | [<- | []]]]; reflexivity.
  - split.
    + intros Hup. destruct (unicode_upper_letters s Hs) as (HP & HA & HU).
      simpl in Hu. destruct Hu as [<- | [<- | [<- | []]]]; contradiction.
    + simpl in Hu.
      intros [-> | ->]; destruct Hu as [<- | [<- | [<- | []]]]; discriminate.
Qed.

Lemma padaUpper_letter (pada : option jsstring) (u : N) :
  In u [80; 65; 85] ->
  opt_eqb (toUpperCase unicode_upper <$> pada) [u] = true
  <-> pada = Some [u] \/ pada = Some [u + 32].
Proof.
  intros Hu. rewrite opt_eqb_eq. destruct pada as [s|]; simpl.
  - split.
    + intros [= H]. apply toUpperCase_letter in H; [| exact Hu].
      destruct H as [-> | ->]; auto.
    + intros H. f_equal. apply toUpperCase_letter; [exact Hu |].
      destruct H as [[= ->] | [= ->]]; auto.
  - split; [discriminate | intros [H | H]; discriminate].
Qed.

End MapVoice.

(** C9.  [mapVoice] maps P, A and U, in upper or lower case, to the three
    voices, and every other input, the absent one included, to its empty value
    ([''] in the convert script, [undefined] in the migration).  The Unicode
    case tables enter through [unicode_upper] and the fact that no string
    outside ASCII has one of the three letters as its upper case. *)
Theorem mapVoice_spec (unicode_upper : jsstring -> jsstring)
    (unicode_upper_letters :
       forall s, forallb is_ascii s = false ->
                 unicode_upper s <> js "P" /\ unicode_upper s <> js "A"
                 /\ unicode_upper s <> js "U")
    (pada : option jsstring) :
  (pada = Some (js "P") \/ pada = Some (js "p") ->
   Convert.mapVoice unicode_upper pada = js "parasmaipada"
   /\ Migration.mapVoice unicode_upper pada = Some (js "parasmaipada"))
  /\ (pada = Some (js "A") \/ pada = Some (js "a") ->
      Convert.mapVoice unicode_upper pada = js "atmanepada"
      /\ Migration.mapVoice unicode_upper pada = Some (js "atmanepada"))
  /\ (pada = Some (js "U") \/ pada = Some (js "u") ->
      Convert.mapVoice unicode_upper pada = js "ubhayapada"
      /\ Migration.mapVoice unicode_upper pada = Some (js "ubhayapada"))
  /\ (~ In pada (map Some [js "P"; js "p"; js "A"; js "a"; js "U"; js "u"]) ->
      Convert.mapVoice unicode_upper pada = []
      /\ Migration.mapVoice unicode_upper pada = None).
Proof.
  split; [| split; [| split]];
    try (intros [-> | ->]; split; reflexivity).
  intros Hother.
  pose proof (padaUpper_letter unicode_upper unicode_upper_letters pada 80) as HP.
  pose proof (padaUpper_letter unicode_upper unicode_upper_letters pada 65) as HA.
  pose proof (padaUpper_letter unicode_upper unicode_upper_letters pada 85) as HU.
  unfold Convert.mapVoice, Migration.mapVoice; cbv zeta.
  change (js "P") with [80]; change (js "A") with [65];
    change (js "U") with [85].
  destruct (opt_eqb (toUpperCase unicode_upper <$> pada) [80]);
    [exfalso; apply Hother; simpl;
     destruct HP as [[-> | ->] _]; simpl; auto 10 |].
  destruct (opt_eqb (toUpperCase unicode_upper <$> pada) [65]);
    [exfalso; apply Hother; simpl;
     destruct HA as [[-> | ->] _]; simpl; auto 10 |].
  destruct (opt_eqb (toUpperCase unicode_upper <$> pada) [85]);
    [exfalso; apply Hother; simpl;
     destruct HU as [[-> | ->] _]; simpl; auto 10 |].
  split; reflexivity.
Qed.

Lemma mapVoice_spec_witness :
  Convert.mapVoice (fun s => s) (Some (js "p")) = js "parasmaipada"
  /\ Migration.mapVoice (fun s => s) (Some (js "p")) = Some (js "parasmaipada")
  /\ Convert.mapVoice (fun s => s) (Some (js "x")) = []
  /\ Migration.mapVoice (fun s => s) None = None.
Proof.
  assert (Hid : forall s : jsstring, forallb is_ascii s = false ->
                  s <> js "P" /\ s <> js "A" /\ s <> js "U").
  { intros s Hs. repeat split; intros ->; discriminate Hs. }
  destruct (mapVoice_spec (fun s => s) Hid (Some (js "p"))) as (HP & _).
  destruct (mapVoice_spec (fun s => s) Hid (Some (js "x"))) as (_ & _ & _ & Hx).
  destruct (mapVoice_spec (fun s => s) Hid None) as (_ & _ & _ & Hn).
  split; [| split; [| split]].
  - apply HP. right. reflexivity.
  - apply HP. right. reflexivity.
  - apply Hx. simpl. intros H. repeat destruct H as [H | H]; try discriminate H. exact H.
  - apply Hn. simpl. intros H. repeat destruct H as [H | H]; try discriminate H. exact H.
Defined.

(** ** The two copies of the parser *)

Lemma parseLine_from_copies (line : jsstring) :
  forall values current inQuotes,
    Migration.parseLine_from line values current inQuotes
    = Convert.parseLine_from line values current inQuotes.
Proof.
  remember (length line) as n eqn:Hn.
  assert (Hle : (length line <= n)%nat) by lia. clear Hn.
  revert line Hle. induction n as [| n IH]; intros line Hle values current inQuotes.
  - destruct line; [reflexivity | simpl in Hle; lia].
  - destruct line as [| char rest]; [reflexivity |].
    simpl in Hle. simpl. destruct (char =? DQUOTE).
    + destruct rest as [| nextChar rest'].
      * apply IH. simpl. lia.
      * simpl in Hle.
        destruct (inQuotes && (nextChar =? DQUOTE)); apply IH; simpl; lia.
    + destruct ((char =? COMMA) && negb inQuotes); apply IH; simpl; lia.
Qed.

Lemma parseLine_copies (line : jsstring) :
  Migration.parseLine line = Convert.parseLine line.
Proof. apply parseLine_from_copies. Qed.

Lemma hasContent_copies (values : list jsstring) :
  Migration.hasContent values = Convert.hasContent values.
Proof. reflexivity. Qed.

Lemma forEach_header_copies (headers : list jsstring) :
  forall index values row,
    Migration.forEach_header headers index values row
    = Convert.forEach_header headers index values row.
Proof.
  induction headers as [| header headers IH]; intros; simpl;
    [reflexivity | apply IH].
Qed.

Lemma parseRows_copies (headers lines : list jsstring) :
  forall rows,
    Migration.parseRows headers lines rows
    = Convert.parseRows headers lines rows.
Proof.
  induction lines as [| line lines IH]; intros rows; simpl; [reflexivity |].
  rewrite parseLine_copies, hasContent_copies, forEach_header_copies.
  destruct (negb (Convert.hasContent (Convert.parseLine line))); apply IH.
Qed.

Lemma parseCSV_copies (content : jsstring) :
  Migration.parseCSV content = Convert.parseCSV content.
Proof.
  unfold Migration.parseCSV, Convert.parseCSV.
  destruct (List.filter _ _) as [| line0 lines]; [reflexivity |].
  rewrite parseLine_copies. apply parseRows_copies.
Qed.

(** C7.  The parser of the import migration and the parser of the convert
    script compute the same function: the same records for every content, and
    the same fields for every line. *)
Theorem parseCSV_same_function :
  (forall content : jsstring,
     Migration.parseCSV content = Convert.parseCSV content)
  /\ (forall line : jsstring,
        Migration.parseLine line = Convert.parseLine line).
Proof.
  split; [exact parseCSV_copies | exact parseLine_copies].
Qed.

(** ** Quotes *)

Lemma parseLine_from_doubled (rest : jsstring) (values : list jsstring)
    (current : jsstring) :
  Convert.parseLine_from (DQUOTE :: DQUOTE :: rest) values current true
  = Convert.parseLine_from rest values (current ++ [DQUOTE]) true.
Proof. reflexivity. Qed.

Lemma parseLine_from_inside (rest : jsstring) :
  forall (values : list jsstring) (current : jsstring),
    ~ In DQUOTE rest ->
    Convert.parseLine_from rest values current true
    = values ++ [trim (current ++ rest)].
Proof.
  induction rest as [| char rest IH]; intros values current Hq; simpl.
  - rewrite app_nil_r. reflexivity.
  - destruct (N.eqb_spec char DQUOTE) as [-> | Hne].
    + exfalso. apply Hq. left. reflexivity.
    + rewrite andb_false_r. rewrite IH.
      * rewrite <- app_assoc. reflexivity.
      * intros Hin. apply Hq. right. exact Hin.
Qed.

(** C6 (amended).  Inside quotes a doubled double quote adds one double quote
    to the current field and the scan goes on after both, in both copies of
    the parser; the field [He said ""hi""] enclosed in quotes is read as
    [He said "hi"]. *)
Theorem doubled_quote_inside_quotes :
  (forall (rest : jsstring) (values : list jsstring) (current : jsstring),
     Convert.parseLine_from (DQUOTE :: DQUOTE :: rest) values current true
     = Convert.parseLine_from rest values (current ++ [DQUOTE]) true
     /\ Migration.parseLine_from (DQUOTE :: DQUOTE :: rest) values current true
        = Migration.parseLine_from rest values (current ++ [DQUOTE]) true)
  /\ Convert.parseLine
       ([DQUOTE] ++ js "He said " ++ [DQUOTE; DQUOTE] ++ js "hi"
        ++ [DQUOTE; DQUOTE] ++ [DQUOTE])
     = [js "He said " ++ [DQUOTE] ++ js "hi" ++ [DQUOTE]]
  /\ Migration.parseLine
       ([DQUOTE] ++ js "He said " ++ [DQUOTE; DQUOTE] ++ js "hi"
        ++ [DQUOTE; DQUOTE] ++ [DQUOTE])
     = [js "He said " ++ [DQUOTE] ++ js "hi" ++ [DQUOTE]].
Proof.
  split; [| split; reflexivity].
  intros rest values current. split; reflexivity.
Qed.

(** C6 as stated fails: the field [He said ""hi""] on its own, not enclosed
    in quotes, is read as [He said hi]: the first quote of each pair opens a
    quoted part and the second closes it. *)
Lemma doubled_quote_unquoted_field :
  Convert.parseLine
    (js "He said " ++ [DQUOTE; DQUOTE] ++ js "hi" ++ [DQUOTE; DQUOTE])
  = [js "He said hi"]
  /\ Convert.parseLine
       (js "He said " ++ [DQUOTE; DQUOTE] ++ js "hi" ++ [DQUOTE; DQUOTE])
     <> [js "He said " ++ [DQUOTE] ++ js "hi" ++ [DQUOTE]]
  /\ Migration.parseLine
       (js "He said " ++ [DQUOTE; DQUOTE] ++ js "hi" ++ [DQUOTE; DQUOTE])
     <> [js "He said " ++ [DQUOTE] ++ js "hi" ++ [DQUOTE]].
Proof.
  split; [reflexivity | split; discriminate].
Qed.

(** C5.  The parser is a total function of its input: both copies return a
    list of records for every content.  After an opening quote that is never
    closed, every remaining character of the line, commas included, goes to
    the current field. *)
Theorem parseCSV_unterminated_quote :
  (forall content : jsstring,
     exists rows : list Row,
       Convert.parseCSV content = rows /\ Migration.parseCSV content = rows)
  /\ (forall (rest : jsstring) (values : list jsstring) (current : jsstring),
        ~ In DQUOTE rest ->
        Convert.parseLine_from (DQUOTE :: rest) values current false
        = values ++ [trim (current ++ rest)]
        /\ Migration.parseLine_from (DQUOTE :: rest) values current false
           = values ++ [trim (current ++ rest)]).
Proof.
  split.
  - intros content. exists (Convert.parseCSV content).
    split; [reflexivity | apply parseCSV_copies].
  - intros rest values current Hq.
    assert (Hopen : Convert.parseLine_from (DQUOTE :: rest) values current false
                    = Convert.parseLine_from rest values current true)
      by (destruct rest; reflexivity).
    split; [| etransitivity; [apply parseLine_from_copies |]];
      rewrite Hopen; apply parseLine_from_inside; exact Hq.
Qed.

Lemma parseCSV_unterminated_quote_witness :
  Convert.parseLine (js "a," ++ [DQUOTE] ++ js "x,y, z")
  = [js "a"; js "x,y, z"].
Proof.
  assert (Hq : ~ In DQUOTE (js "x,y, z")).
  { simpl. intros H. repeat destruct H as [H | H]; try discriminate H. exact H. }
  exact (proj1 (proj2 parseCSV_unterminated_quote (js "x,y, z") [js "a"] [] Hq)).
Defined.

(** ** Trimming *)

Lemma trimStart_decomp (s : jsstring) :
  exists w, s = w ++ trimStart s /\ forallb is_ws w = true.
Proof.
  induction s as [| c r (w & Hw & Hall)]; simpl.
  - exists []. split; reflexivity.
  - destruct (is_ws c) eqn:Hc.
    + exists (c :: w). simpl. rewrite Hc, Hall. split; [congruence | reflexivity].
    + exists []. split; reflexivity.
Qed.

Lemma trimStart_head (s : jsstring) (c : N) (r : jsstring) :
  trimStart s = c :: r -> is_ws c = false.
Proof.
  induction s as [| c' r' IH]; simpl; [discriminate |].
  destruct (is_ws c') eqn:Hc; [exact IH |].
  intros [= <- <-]. exact Hc.
Qed.

Lemma trimStart_id (c : N) (r : jsstring) :
  is_ws c = false -> trimStart (c :: r) = c :: r.
Proof. intros Hc. simpl. rewrite Hc. reflexivity. Qed.

Lemma trimStart_idem (s : jsstring) : trimStart (trimStart s) = trimStart s.
Proof.
  destruct (trimStart s) as [| c r] eqn:Hs; [reflexivity |].
  apply trimStart_id. eapply trimStart_head. exact Hs.
Qed.

Lemma trimStart_ws (w s : jsstring) :
  forallb is_ws w = true -> trimStart (w ++ s) = trimStart s.
Proof.
  induction w as [| c w IH]; simpl; [reflexivity |].
  intros H. apply andb_true_iff in H as [Hc Hw]. rewrite Hc. apply IH, Hw.
Qed.

Lemma trimStart_nil_iff (s : jsstring) :
  trimStart s = [] <-> forallb is_ws s = true.
Proof.
  induction s as [| c r IH]; simpl; [tauto |].
  destruct (is_ws c); simpl; [exact IH | split; discriminate].
Qed.

Lemma trimEnd_decomp (s : jsstring) :
  exists w, s = trimEnd s ++ w /\ forallb is_ws w = true.
Proof.
  destruct (trimStart_decomp (rev s)) as (w & Hw & Hall).
  exists (rev w). split.
  - unfold trimEnd. rewrite <- rev_app_distr, <- Hw, rev_involutive. reflexivity.
  - rewrite forallb_forall in *. intros c Hc. apply Hall.
    apply in_rev. exact Hc.
Qed.

Lemma trimEnd_idem (s : jsstring) : trimEnd (trimEnd s) = trimEnd s.
Proof.
  unfold trimEnd. rewrite rev_involutive, trimStart_idem. reflexivity.
Qed.

Lemma trimEnd_snoc (r : jsstring) (c : N) :
  is_ws c = false -> trimEnd (r ++ [c]) = r ++ [c].
Proof.
  intros Hc. unfold trimEnd. rewrite rev_app_distr. simpl. rewrite Hc.
  simpl. rewrite rev_involutive. reflexivity.
Qed.

Lemma trimEnd_nil_iff (s : jsstring) :
  trimEnd s = [] <-> forallb is_ws s = true.
Proof.
  unfold trimEnd. split.
  - intros H. apply (f_equal (@rev N)) in H. rewrite rev_involutive in H.
    simpl in H. apply trimStart_nil_iff in H.
    rewrite forallb_forall in *. intros c Hc. apply H. apply in_rev in Hc.
    exact Hc.
  - intros H. assert (Hr : forallb is_ws (rev s) = true).
    { rewrite forallb_forall in *. intros c Hc. apply H, in_rev, Hc. }
    apply trimStart_nil_iff in Hr. rewrite Hr. reflexivity.
Qed.

(** Trimming the end keeps the head. *)
Lemma trimEnd_cons (c : N) (r : jsstring) :
  is_ws c = false -> exists r', trimEnd (c :: r) = c :: r'.
Proof.
  intros Hc. destruct (trimEnd_decomp (c :: r)) as (w & Hw & Hall).
  destruct (trimEnd (c :: r)) as [| c' r'] eqn:Ht.
  - simpl in Hw. subst w. simpl in Hall. rewrite Hc in Hall. discriminate.
  - injection Hw as <- _. eauto.
Qed.

Lemma trim_idem (s : jsstring) : trim (trim s) = trim s.
Proof.
  unfold trim. destruct (trimStart s) as [| c r] eqn:Hs; [reflexivity |].
  pose proof (trimStart_head _ _ _ Hs) as Hc.
  destruct (trimEnd_cons c r Hc) as (r' & Hr').
  rewrite Hr', (trimStart_id c r' Hc), <- Hr'. apply trimEnd_idem.
Qed.

Lemma trim_nil_iff (s : jsstring) : trim s = [] <-> forallb is_ws s = true.
Proof.
  unfold trim. rewrite trimEnd_nil_iff. split.
  - intros H. destruct (trimStart_decomp s) as (w & Hw & Hall).
    rewrite Hw, forallb_app, Hall, H. reflexivity.
  - intros H. destruct (trimStart_decomp s) as (w & Hw & Hall).
    rewrite Hw, forallb_app in H. apply andb_true_iff in H as [_ H]. exact H.
Qed.

Lemma trim_In (s : jsstring) (c : N) : In c (trim s) -> In c s.
Proof.
  unfold trim. intros H.
  destruct (trimStart_decomp s) as (w & Hw & _).
  destruct (trimEnd_decomp (trimStart s)) as (w' & Hw' & _).
  rewrite Hw, Hw'. apply in_or_app. right. apply in_or_app. left. exact H.
Qed.

(** A string with a character that is not white space is not blank. *)
Lemma trim_not_blank (s : jsstring) (c : N) :
  In c s -> is_ws c = false -> trim s <> [].
Proof.
  intros Hin Hc Ht. apply trim_nil_iff in Ht.
  rewrite forallb_forall in Ht. rewrite (Ht c Hin) in Hc. discriminate.
Qed.

Lemma trim_nil : trim [] = [].
Proof. reflexivity. Qed.

(** ** Lines *)

Lemma split_no_sep (sep : N) (s : jsstring) :
  ~ In sep s -> split sep s = [s].
Proof.
  induction s as [| c r IH]; simpl; [reflexivity |].
  intros H. destruct (N.eqb_spec c sep) as [-> | Hne].
  - exfalso. apply H. left. reflexivity.
  - rewrite IH; [reflexivity |]. intros Hin. apply H. right. exact Hin.
Qed.

Lemma split_app (sep : N) (l s : jsstring) :
  ~ In sep l -> split sep (l ++ sep :: s) = l :: split sep s.
Proof.
  induction l as [| c r IH]; simpl.
  - rewrite N.eqb_refl. reflexivity.
  - intros H. destruct (N.eqb_spec c sep) as [-> | Hne].
    + exfalso. apply H. left. reflexivity.
    + rewrite IH; [reflexivity |]. intros Hin. apply H. right. exact Hin.
Qed.

Lemma split_join (sep : N) (ls : list jsstring) :
  ls <> [] -> Forall (fun l => ~ In sep l) ls -> split sep (join sep ls) = ls.
Proof.
  induction ls as [| l ls IH]; [congruence |].
  intros _ Hall. inversion Hall as [| ? ? Hl Hls]; subst.
  destruct ls as [| l' ls'].
  - simpl. apply split_no_sep, Hl.
  - change (join sep (l :: l' :: ls')) with (l ++ sep :: join sep (l' :: ls')).
    rewrite split_app by exact Hl. rewrite IH; [reflexivity | discriminate | exact Hls].
Qed.

Lemma split_no_newline (sep : N) (s : jsstring) :
  Forall (fun l => ~ In sep l) (split sep s).
Proof.
  induction s as [| c r IH]; simpl.
  - constructor; [intros [] | constructor].
  - destruct (N.eqb_spec c sep) as [-> | Hne].
    + constructor; [intros [] | exact IH].
    + destruct (split sep r) as [| l ls]; [repeat constructor; intros [H | []]; congruence |].
      inversion IH as [| ? ? Hl Hls]; subst.
      constructor; [| exact Hls]. intros [H | H]; [congruence | contradiction].
Qed.

Lemma join_In (sep c : N) (ls : list jsstring) :
  In c (join sep ls) -> c = sep \/ exists l, In l ls /\ In c l.
Proof.
  induction ls as [| l ls IH]; [intros [] |].
  destruct ls as [| l' ls'].
  - simpl. intros H. right. exists l. split; [left; reflexivity | exact H].
  - change (join sep (l :: l' :: ls')) with (l ++ sep :: join sep (l' :: ls')).
    intros H. apply in_app_or in H as [H | [H | H]].
    + right. exists l. split; [left; reflexivity | exact H].
    + left. congruence.
    + destruct (IH H) as [-> | (l0 & Hl0 & Hc)]; [left; reflexivity |].
      right. exists l0. split; [right; exact Hl0 | exact Hc].
Qed.

(** ** Fields of a line *)

(** An unquoted field without comma or quote is read up to its end. *)
Lemma parseLine_from_plain (h rest : jsstring) :
  forall (values : list jsstring) (current : jsstring),
    ~ In COMMA h -> ~ In DQUOTE h ->
    Convert.parseLine_from (h ++ rest) values current false
    = Convert.parseLine_from rest values (current ++ h) false.
Proof.
  induction h as [| c h IH]; intros values current Hc Hq; simpl.
  - rewrite app_nil_r. reflexivity.
  - destruct (N.eqb_spec c DQUOTE) as [-> | Hne1];
      [exfalso; apply Hq; left; reflexivity |].
    destruct (N.eqb_spec c COMMA) as [-> | Hne2];
      [exfalso; apply Hc; left; reflexivity |].
    simpl. rewrite IH.
    + rewrite <- app_assoc. reflexivity.
    + intros Hin. apply Hc. right. exact Hin.
    + intros Hin. apply Hq. right. exact Hin.
Qed.

Lemma parseLine_from_comma (rest : jsstring) (values : list jsstring)
    (current : jsstring) :
  Convert.parseLine_from (COMMA :: rest) values current false
  = Convert.parseLine_from rest (values ++ [trim current]) [] false.
Proof. reflexivity. Qed.

(** The header line: the headers joined by commas are read back, trimmed. *)
Lemma parseLine_from_join_plain (hs : list jsstring) :
  forall values : list jsstring,
    hs <> [] ->
    Forall (fun h => ~ In COMMA h /\ ~ In DQUOTE h) hs ->
    Convert.parseLine_from (join COMMA hs) values [] false
    = values ++ map trim hs.
Proof.
  induction hs as [| h hs IH]; [congruence |].
  intros values _ Hall. inversion Hall as [| ? ? [Hc Hq] Hhs]; subst.
  destruct hs as [| h' hs'].
  - simpl join. rewrite <- (app_nil_r h) at 1.
    rewrite parseLine_from_plain by assumption. reflexivity.
  - change (join COMMA (h :: h' :: hs')) with (h ++ COMMA :: join COMMA (h' :: hs')).
    rewrite parseLine_from_plain by assumption.
    rewrite parseLine_from_comma, IH; [| discriminate | exact Hhs].
    simpl. rewrite <- app_assoc. reflexivity.
Qed.

(** A quoted field: the escaped value up to the closing quote. *)
Lemma parseLine_from_escaped (v rest : jsstring) :
  forall (values : list jsstring) (current : jsstring),
    (rest = [] \/ exists rest', rest = COMMA :: rest') ->
    Convert.parseLine_from (Convert.escapeQuotes v ++ DQUOTE :: rest)
      values current true
    = Convert.parseLine_from rest values (current ++ v) false.
Proof.
  induction v as [| c v IH]; intros values current Hrest.
  - rewrite app_nil_r. destruct Hrest as [-> | (rest' & ->)]; reflexivity.
  - simpl Convert.escapeQuotes. destruct (N.eqb_spec c DQUOTE) as [-> | Hne].
    + change ((DQUOTE :: DQUOTE :: Convert.escapeQuotes v) ++ DQUOTE :: rest)
        with (DQUOTE :: DQUOTE :: (Convert.escapeQuotes v ++ DQUOTE :: rest)).
      rewrite parseLine_from_doubled, IH by exact Hrest.
      rewrite <- app_assoc. reflexivity.
    + simpl. apply N.eqb_neq in Hne. rewrite Hne, andb_false_r.
      rewrite IH by exact Hrest. rewrite <- app_assoc. reflexivity.
Qed.

Lemma parseLine_from_quoted (v rest : jsstring) (values : list jsstring) :
  (rest = [] \/ exists rest', rest = COMMA :: rest') ->
  Convert.parseLine_from (Convert.quoteField v ++ rest) values [] false
  = Convert.parseLine_from rest values v false.
Proof.
  intros Hrest. unfold Convert.quoteField.
  change ((DQUOTE :: Convert.escapeQuotes v ++ [DQUOTE]) ++ rest)
    with (DQUOTE :: ((Convert.escapeQuotes v ++ [DQUOTE]) ++ rest)).
  rewrite <- app_assoc. simpl app at 2.
  transitivity (Convert.parseLine_from
                  (Convert.escapeQuotes v ++ DQUOTE :: rest) values [] true).
  - destruct (Convert.escapeQuotes v ++ DQUOTE :: rest); reflexivity.
  - apply (parseLine_from_escaped v rest values [] Hrest).
Qed.

(** A data line of [arrayToCSV]: the quoted fields joined by commas are read
    back, trimmed. *)
Lemma parseLine_from_join_quoted (vs : list jsstring) :
  forall values : list jsstring,
    vs <> [] ->
    Convert.parseLine_from (join COMMA (map Convert.quoteField vs)) values [] false
    = values ++ map trim vs.
Proof.
  induction vs as [| v vs IH]; [congruence |].
  intros values _. destruct vs as [| v' vs'].
  - simpl join. rewrite <- (app_nil_r (Convert.quoteField v)).
    rewrite parseLine_from_quoted by (left; reflexivity). reflexivity.
  - change (join COMMA (map Convert.quoteField (v :: v' :: vs')))
      with (Convert.quoteField v
            ++ COMMA :: join COMMA (map Convert.quoteField (v' :: vs'))).
    rewrite parseLine_from_quoted by (right; eauto).
    rewrite parseLine_from_comma, IH by discriminate.
    simpl. rewrite <- app_assoc. reflexivity.
Qed.

(** ** Rows *)

Lemma or_empty_Some (x : jsstring) : or_empty (Some x) = x.
Proof. destruct x; reflexivity. Qed.

Lemma forEach_header_map (f : jsstring -> jsstring) (hs : list jsstring) :
  forall (pre : list jsstring) (row : Row),
    Convert.forEach_header hs (length pre) (pre ++ map f hs) row
    = foldl (fun row h => row_set row h (f h)) row hs.
Proof.
  induction hs as [| h hs IH]; intros pre row; simpl; [reflexivity |].
  rewrite list_lookup_middle by reflexivity. rewrite or_empty_Some.
  specialize (IH (pre ++ [f h]) (row_set row h (f h))).
  rewrite length_app, Nat.add_1_r, <- app_assoc in IH. exact IH.
Qed.

Lemma foldl_row_set_lookup (f : jsstring -> jsstring) (hs : list jsstring) :
  forall (row : Row) (k : jsstring),
    foldl (fun row h => row_set row h (f h)) row hs !! k
    = if decide (k ∈ hs /\ k <> PROTO) then Some (f k) else row !! k.
Proof.
  induction hs as [| h hs IH]; intros row k; simpl foldl.
  - rewrite decide_False; [reflexivity |]. intros [Hin _]. inversion Hin.
  - rewrite IH. unfold row_set.
    destruct (decide (k ∈ hs /\ k <> PROTO)) as [[Hin Hp] | Hn].
    + rewrite decide_True; [reflexivity |]. split; [right; exact Hin | exact Hp].
    + destruct (decide (h = k)) as [-> | Hne].
      * destruct (str_eqb k PROTO) eqn:Hk.
        -- apply str_eqb_eq in Hk. rewrite decide_False by tauto. reflexivity.
        -- apply str_eqb_neq in Hk.
           rewrite decide_True; [apply lookup_insert_eq |].
           split; [left | exact Hk].
      * rewrite decide_False.
        -- destruct (str_eqb h PROTO); [reflexivity |].
           apply lookup_insert_ne. exact Hne.
        -- intros [Hin Hp]. apply Hn. split; [| exact Hp].
           inversion Hin; subst; [congruence | assumption].
Qed.

Lemma plainRow_fields (headers : list jsstring) (row : Row) :
  plainRow headers row -> forall k, is_Some (row !! k) <-> k ∈ headers.
Proof.
  intros (Hdom & _) k. rewrite <- elem_of_dom, Hdom.
  apply elem_of_list_to_set.
Qed.

Lemma rowValues_trimmed (headers : list jsstring) (row : Row) :
  plainRow headers row ->
  map trim (rowValues headers row) = rowValues headers row.
Proof.
  intros (_ & Hv & _). unfold rowValues. rewrite map_map.
  apply map_ext. intros h. destruct (row !! h) as [v|] eqn:Hh; [| reflexivity].
  rewrite or_empty_Some. apply (Hv h v Hh).
Qed.

Lemma forEach_header_rowValues (headers : list jsstring) (row : Row) :
  Forall plainHeader headers -> plainRow headers row ->
  Convert.forEach_header headers 0 (rowValues headers row) ∅ = row.
Proof.
  intros Hhs Hrow. pose proof (plainRow_fields _ _ Hrow) as Hdom.
  destruct Hrow as (_ & Hv & _).
  pose proof (forEach_header_map (fun h => or_empty (row !! h)) headers [] ∅) as Hf.
  simpl in Hf. unfold rowValues. rewrite Hf. clear Hf.
  apply map_eq. intros k. rewrite foldl_row_set_lookup.
  destruct (decide (k ∈ headers /\ k <> PROTO)) as [[Hin _] | Hn].
  - apply Hdom in Hin as [v Hk]. rewrite Hk, or_empty_Some. reflexivity.
  - rewrite lookup_empty. symmetry. apply eq_None_not_Some. intros Hs.
    apply Hdom in Hs. apply Hn. split; [exact Hs |].
    rewrite Forall_forall in Hhs. apply (Hhs k Hs).
Qed.

Lemma hasContent_rowValues (headers : list jsstring) (row : Row) :
  plainRow headers row -> Convert.hasContent (rowValues headers row) = true.
Proof.
  intros Hrow. pose proof (plainRow_fields _ _ Hrow) as Hdom.
  destruct Hrow as (_ & Hv & (k & v & Hk & Hne)).
  unfold Convert.hasContent. apply existsb_exists. exists v. split.
  - unfold rowValues. apply in_map_iff. exists k. split.
    + rewrite Hk. apply or_empty_Some.
    + apply list_elem_of_In, Hdom. eauto.
  - destruct (Hv k v Hk) as [Ht _]. rewrite Ht.
    apply andb_true_iff. split.
    + destruct v; [congruence | reflexivity].
    + apply negb_true_iff, str_eqb_neq, Hne.
Qed.

Lemma arrayToCSV_lines (data : list Row) (headers : list jsstring) :
  Convert.arrayToCSV data headers
  = join NEWLINE (join COMMA headers :: map (dataLine headers) data).
Proof.
  unfold Convert.arrayToCSV. cbv zeta. simpl app. f_equal. f_equal.
  apply map_ext. intros row. unfold dataLine, rowValues.
  rewrite map_map. reflexivity.
Qed.

Lemma parseLine_dataLine (headers : list jsstring) (row : Row) :
  headers <> [] ->
  Convert.parseLine (dataLine headers row) = map trim (rowValues headers row).
Proof.
  intros Hne. unfold Convert.parseLine, dataLine.
  rewrite parseLine_from_join_quoted; [reflexivity |].
  unfold rowValues. destruct headers; [congruence | discriminate].
Qed.

Lemma parseRows_dataLines (headers : list jsstring) (data : list Row) :
  forall rows : list Row,
    headers <> [] -> Forall plainHeader headers ->
    Forall (plainRow headers) data ->
    Convert.parseRows headers (map (dataLine headers) data) rows = rows ++ data.
Proof.
  induction data as [| row data IH]; intros rows Hne Hhs Hdata; simpl.
  - rewrite app_nil_r. reflexivity.
  - inversion Hdata as [| ? ? Hrow Hrest]; subst.
    rewrite parseLine_dataLine, rowValues_trimmed by assumption.
    rewrite hasContent_rowValues by assumption. simpl.
    rewrite forEach_header_rowValues by assumption.
    rewrite IH by assumption. rewrite <- app_assoc. reflexivity.
Qed.

Lemma escapeQuotes_In (v : jsstring) (c : N) :
  In c (Convert.escapeQuotes v) -> c = DQUOTE \/ In c v.
Proof.
  induction v as [| c' v IH]; simpl; [tauto |].
  destruct (N.eqb_spec c' DQUOTE) as [-> | Hne]; simpl; intuition.
Qed.

Lemma dataLine_no_newline (headers : list jsstring) (row : Row) :
  plainRow headers row -> ~ In NEWLINE (dataLine headers row).
Proof.
  intros (_ & Hv & _) Hin. unfold dataLine in Hin.
  apply join_In in Hin as [Hc | (l & Hl & Hin)]; [discriminate Hc |].
  apply in_map_iff in Hl as (v & <- & Hvin).
  unfold Convert.quoteField in Hin. destruct Hin as [Hq | Hin]; [discriminate Hq |].
  apply in_app_or in Hin as [Hin | [Hq | []]]; [| discriminate Hq].
  apply escapeQuotes_In in Hin as [Hq | Hin]; [discriminate Hq |].
  unfold rowValues in Hvin. apply in_map_iff in Hvin as (h & <- & _).
  destruct (row !! h) as [v|] eqn:Hh; [| destruct Hin].
  rewrite or_empty_Some in Hin. apply (Hv h v Hh). exact Hin.
Qed.

Lemma dataLine_not_blank (headers : list jsstring) (row : Row) :
  headers <> [] -> trim (dataLine headers row) <> [].
Proof.
  intros Hne. apply (trim_not_blank _ DQUOTE); [| reflexivity].
  unfold dataLine, rowValues. destruct headers as [| h hs]; [congruence |].
  destruct hs; simpl; left; reflexivity.
Qed.

Lemma filter_all {A} (f : A -> bool) (l : list A) :
  Forall (fun x => f x = true) l -> List.filter f l = l.
Proof.
  induction 1 as [| x l Hx _ IH]; simpl; [reflexivity |].
  rewrite Hx, IH. reflexivity.
Qed.

Lemma truthy_true (s : jsstring) : truthy s = true <-> s <> [].
Proof. destruct s; simpl; split; congruence. Qed.

(** The round trip through [arrayToCSV] and [parseCSV]. *)
Lemma parseCSV_arrayToCSV (headers : list jsstring) (data : list Row) :
  Forall plainHeader headers ->
  trim (join COMMA headers) <> [] ->
  Forall (plainRow headers) data ->
  Convert.parseCSV (Convert.arrayToCSV data headers) = data.
Proof.
  intros Hhs Hline Hdata.
  assert (Hne : headers <> []) by (intros ->; apply Hline; reflexivity).
  rewrite arrayToCSV_lines. unfold Convert.parseCSV.
  rewrite split_join; [| discriminate |].
  - rewrite filter_all.
    + unfold Convert.parseLine.
      rewrite parseLine_from_join_plain; [| exact Hne |].
      * simpl app. replace (map trim headers) with headers.
        -- apply (parseRows_dataLines headers data []); assumption.
        -- symmetry. rewrite <- (map_id headers) at 2. apply map_ext_in.
           intros h Hh. rewrite Forall_forall in Hhs.
           apply (Hhs h), list_elem_of_In, Hh.
      * eapply Forall_impl; [exact Hhs |]. intros h (_ & Hc & Hq & _). tauto.
    + constructor; [apply truthy_true, Hline |].
      apply Forall_map. eapply Forall_impl; [exact Hdata |].
      intros row _. apply truthy_true, dataLine_not_blank, Hne.
  - constructor.
    + intros Hin. apply join_In in Hin as [Hc | (h & Hh & Hin)];
        [discriminate Hc |].
      rewrite Forall_forall in Hhs. apply list_elem_of_In in Hh.
      destruct (Hhs h Hh) as (_ & _ & _ & Hn & _). contradiction.
    + apply Forall_map. eapply Forall_impl; [exact Hdata |].
      intros row Hrow. apply dataLine_no_newline, Hrow.
Qed.

(** C1 (amended).  Parsing what [arrayToCSV] writes gives the rows back when
    the headers are trimmed, free of commas, quotes and newlines, none of them
    [__proto__], the header line is not blank, and every row has exactly the
    headers as fields, each value trimmed and free of newlines, one at least
    not empty. *)
Theorem parseCSV_arrayToCSV_roundtrip (H : list jsstring) (R : list Row) :
  Forall plainHeader H ->
  trim (join COMMA H) <> [] ->
  Forall (plainRow H) R ->
  Convert.parseCSV (Convert.arrayToCSV R H) = R.
Proof. apply parseCSV_arrayToCSV. Qed.

Lemma parseCSV_arrayToCSV_roundtrip_witness :
  let H := [js "word"; js "note"] in
  let R : list Row :=
    [ {[ js "word" := js "a, b"; js "note" := [DQUOTE] ++ js "hi" ++ [DQUOTE] ]};
      {[ js "word" := js "गम्"; js "note" := [] ]} ] in
  Convert.parseCSV (Convert.arrayToCSV R H) = R.
Proof.
  intros H R. apply parseCSV_arrayToCSV_roundtrip.
  - repeat (apply Forall_cons_2;
            [unfold plainHeader; split; [| split; [| split; [| split]]] |]);
      try apply Forall_nil_2; try reflexivity; try discriminate; not_in_string.
  - discriminate.
  - assert (Hrow : forall w n : jsstring,
              trim w = w -> ~ In NEWLINE w -> trim n = n -> ~ In NEWLINE n ->
              w <> [] ->
              plainRow H ({[ js "word" := w; js "note" := n ]} : Row)).
    { intros w n Hw Hwn Hn Hnn Hne. split; [| split].
      - subst H. rewrite dom_insert_L, dom_singleton_L.
        simpl. set_solver.
      - intros k v Hk.
        apply lookup_insert_Some in Hk as [[_ <-] | [_ Hk]]; [tauto |].
        apply lookup_singleton_Some in Hk as [_ <-]. tauto.
      - exists (js "word"), w. split; [apply lookup_insert_eq | exact Hne]. }
    apply Forall_cons_2; [| apply Forall_cons_2; [| apply Forall_nil_2]];
      apply Hrow; try reflexivity; try discriminate; not_in_string.
Defined.

(** C1 as stated fails.  A value with white space around it comes back
    trimmed; a row of empty values is dropped; a header with a comma is read as
    two; a field a row does not have comes back empty. *)
Lemma parseCSV_arrayToCSV_not_identity :
  Convert.parseCSV (Convert.arrayToCSV [ {[ js "a" := js " x" ]} ] [js "a"])
    <> [ {[ js "a" := js " x" ]} ]
  /\ Convert.parseCSV (Convert.arrayToCSV [ {[ js "a" := [] ]} ] [js "a"])
     <> [ {[ js "a" := [] ]} ]
  /\ Convert.parseCSV
       (Convert.arrayToCSV [ {[ js "a,b" := js "1" ]} ] [js "a,b"])
     <> [ {[ js "a,b" := js "1" ]} ]
  /\ Convert.parseCSV
       (Convert.arrayToCSV [ {[ js "a" := js "1" ]} ] [js "a"; js "b"])
     <> [ {[ js "a" := js "1" ]} ].
Proof.
  split; [| split; [| split]].
  - intros Heq.
    apply (f_equal (map (fun row : Row => row !! js "a"))) in Heq.
    vm_compute in Heq. discriminate Heq.
  - intros Heq. apply (f_equal (@length Row)) in Heq.
    vm_compute in Heq. discriminate Heq.
  - intros Heq.
    apply (f_equal (map (fun row : Row => row !! js "a,b"))) in Heq.
    vm_compute in Heq. discriminate Heq.
  - intros Heq.
    apply (f_equal (map (fun row : Row => row !! js "b"))) in Heq.
    vm_compute in Heq. discriminate Heq.
Qed.

(** ** The import run *)

Module RunFacts.
Import Migration.

Section RunFacts.

Variable readFile : jsstring -> option jsstring.
Variable create_error : Store -> Data -> option jsstring.

Local Abbreviation toInsert := Run.toInsert.
Local Abbreviation planned := (Run.planned readFile).
Local Abbreviation accepted := (Run.accepted create_error).
Local Abbreviation run_creates := (Run.run_creates create_error).

Lemma run_creates_app (a b : list Data) :
  forall st,
    run_creates (a ++ b) st
    = match run_creates a st with
      | (None, st') => run_creates b st'
      | (Some e, st') => (Some e, st')
      end.
Proof.
  induction a as [| d a IH]; intros st; simpl; [reflexivity |].
  destruct (create_error st d); [reflexivity | apply IH].
Qed.

Lemma run_creates_accepted (p : list Data) :
  forall st, accepted st p -> run_creates p st = (None, st ++ p).
Proof.
  induction p as [| d p IH]; intros st Hacc; simpl.
  - rewrite app_nil_r. reflexivity.
  - pose proof (Hacc [] d p eq_refl) as Hd. rewrite app_nil_r in Hd.
    rewrite Hd, IH.
    + rewrite <- app_assoc. reflexivity.
    + intros p1 d' p2 ->. rewrite <- app_assoc.
      apply (Hacc (d :: p1) d' p2). reflexivity.
Qed.

Lemma run_creates_rejected (p q : list Data) (d : Data) (e : jsstring)
    (st : Store) :
  accepted st p -> create_error (st ++ p) d = Some e ->
  run_creates (p ++ d :: q) st = (Some e, st ++ p).
Proof.
  intros Hacc Hd. rewrite run_creates_app, run_creates_accepted by exact Hacc.
  simpl. rewrite Hd. reflexivity.
Qed.

Lemma run_creates_None (ds : list Data) :
  forall st st', run_creates ds st = (None, st') -> st' = st ++ ds.
Proof.
  induction ds as [| d ds IH]; intros st st'; simpl.
  - intros [= <-]. rewrite app_nil_r. reflexivity.
  - destruct (create_error st d); [discriminate |].
    intros H. apply IH in H. rewrite <- app_assoc in H. exact H.
Qed.

(** The loop of an import: the rows are skipped or created in order. *)
Lemma for_of_creates (data_of : Row -> Data) (bump : Stats -> Stats)
    (rows : list Row) :
  forall (stats : Stats) (st : Store),
    exists stats',
      for_of rows
        (fun row stats =>
           if emptyDevanagari row then ret stats
           else _ <- create create_error (data_of row) ;; ret (bump stats))
        stats st
      = match run_creates
                (map data_of
                   (List.filter (fun row => negb (emptyDevanagari row)) rows))
                st with
        | (None, st') => (Returned stats', st')
        | (Some e, st') => (Thrown e, st')
        end.
Proof.
  induction rows as [| row rows IH]; intros stats st; simpl.
  - exists stats. reflexivity.
  - unfold bind at 1. destruct (emptyDevanagari row); simpl.
    + apply IH.
    + unfold bind at 1, create at 1.
      destruct (create_error st (data_of row)) as [e|].
      * exists stats. reflexivity.
      * simpl. apply IH.
Qed.

(** One import: the file is read and its rows are skipped or created. *)
Lemma import_file_run (name : jsstring) (data_of : Row -> Data)
    (bump : Stats -> Stats) (stats : Stats) (st : Store) :
  exists stats',
    try_catch
      (fileContent <- readFileSync readFile name ;;
       for_of (parseCSV fileContent)
         (fun row stats =>
            if emptyDevanagari row then ret stats
            else _ <- create create_error (data_of row) ;; ret (bump stats))
         stats)
      (fun error => throw error) st
    = match readFile name with
      | None => (Thrown ENOENT, st)
      | Some c =>
        match run_creates (toInsert data_of c) st with
        | (None, st') => (Returned stats', st')
        | (Some e, st') => (Thrown e, st')
        end
      end.
Proof.
  unfold try_catch. unfold bind at 1. unfold readFileSync.
  destruct (readFile name) as [c|]; [| exists stats; reflexivity].
  unfold ret at 1.
  destruct (for_of_creates data_of bump (parseCSV c) stats st) as [stats' ->].
  exists stats'. unfold Run.toInsert.
  destruct (Run.run_creates _ _ st) as [[e|] st']; reflexivity.
Qed.

Lemma importVerbs_run (stats : Stats) (st : Store) :
  exists stats',
    importVerbs readFile create_error stats st
    = match readFile (js "verbs-for-import.csv") with
      | None => (Thrown ENOENT, st)
      | Some c =>
        match run_creates (toInsert verbData c) st with
        | (None, st') => (Returned stats', st')
        | (Some e, st') => (Thrown e, st')
        end
      end.
Proof. apply import_file_run. Qed.

Lemma importSubstantives_run (stats : Stats) (st : Store) :
  exists stats',
    importSubstantives readFile create_error stats st
    = match readFile (js "substantives-for-import.csv") with
      | None => (Thrown ENOENT, st)
      | Some c =>
        match run_creates (toInsert substantiveData c) st with
        | (None, st') => (Returned stats', st')
        | (Some e, st') => (Thrown e, st')
        end
      end.
Proof. apply import_file_run. Qed.

Lemma importIndeclinables_run (stats : Stats) (st : Store) :
  exists stats',
    importIndeclinables readFile create_error stats st
    = match readFile (js "indeclinables-for-import.csv") with
      | None => (Thrown ENOENT, st)
      | Some c =>
        match run_creates (toInsert indeclinableData c) st with
        | (None, st') => (Returned stats', st')
        | (Some e, st') => (Thrown e, st')
        end
      end.
Proof. apply import_file_run. Qed.

(** The run against the planned insertions: the first rejected insertion makes
    the run throw its error, and a run that throws leaves the collection as it
    was; a run that returns has made every planned insertion. *)
Lemma up_planned (st : Store) :
  match run_creates planned st with
  | (Some e, _) => up readFile create_error st = (Thrown e, st)
  | (None, st') =>
    (exists stats, up readFile create_error st = (Returned stats, st'))
    \/ up readFile create_error st = (Thrown ENOENT, st)
  end.
Proof.
  unfold up, transaction, planned, bind.
  destruct (importVerbs_run
              {| verbs := 0; substantives := 0; indeclinables := 0 |} st)
    as [s1 ->].
  destruct (readFile (js "verbs-for-import.csv")) as [cv|]; [| right; reflexivity].
  rewrite run_creates_app.
  destruct (run_creates (toInsert verbData cv) st) as [[e|] st1]; [reflexivity |].
  destruct (importSubstantives_run s1 st1) as [s2 ->].
  destruct (readFile (js "substantives-for-import.csv")) as [cs|];
    [| right; reflexivity].
  rewrite run_creates_app.
  destruct (run_creates (toInsert substantiveData cs) st1) as [[e|] st2];
    [reflexivity |].
  destruct (importIndeclinables_run s2 st2) as [s3 ->].
  destruct (readFile (js "indeclinables-for-import.csv")) as [ci|];
    [| right; reflexivity].
  destruct (run_creates (toInsert indeclinableData ci) st2) as [[e|] st3];
    [reflexivity |].
  left. exists s3. reflexivity.
Qed.

Lemma up_thrown (st st' : Store) (e : jsstring) :
  up readFile create_error st = (Thrown e, st') -> st' = st.
Proof.
  unfold up, transaction.
  destruct (bind _ _ st) as [[stats | e'] st'']; intros [= ]; congruence.
Qed.

Lemma up_returned (st st' : Store) (stats : Stats) :
  up readFile create_error st = (Returned stats, st') -> st' = st ++ planned.
Proof.
  intros Hup. pose proof (up_planned st) as Hp.
  destruct (run_creates planned st) as [[e|] st''] eqn:Hrun.
  - congruence.
  - apply run_creates_None in Hrun.
    destruct Hp as [[stats' Hp] | Hp]; congruence.
Qed.

End RunFacts.
End RunFacts.

(** C3.  The import is all or nothing.  When one of the insertions of the run
    is rejected, after the insertions before it were accepted, the run throws
    the error and the collection is what it was before the run; and whenever
    the run throws, the collection is what it was before the run. *)
Theorem up_all_or_nothing (readFile : jsstring -> option jsstring)
    (create_error : Store -> Data -> option jsstring) (st : Store) :
  (forall (p : list Data) (d : Data) (q : list Data) (e : jsstring),
     Run.planned readFile = p ++ d :: q ->
     Run.accepted create_error st p ->
     create_error (st ++ p) d = Some e ->
     Migration.up readFile create_error st = (Thrown e, st))
  /\ (forall (e : jsstring) (st' : Store),
        Migration.up readFile create_error st = (Thrown e, st') -> st' = st).
Proof.
  split.
  - intros p d q e Hplan Hacc Hd.
    pose proof (RunFacts.up_planned readFile create_error st) as Hup.
    rewrite Hplan, (RunFacts.run_creates_rejected create_error p q d e st Hacc Hd)
      in Hup.
    exact Hup.
  - intros e st'. apply RunFacts.up_thrown.
Qed.

Lemma up_all_or_nothing_witness :
  let content :=
    js "word_type,word_devanagari,order_index
verb,क,1
verb,ख,2
verb,ग,3" in
  let readFile (name : jsstring) : option jsstring :=
    if str_eqb name (js "verbs-for-import.csv") then Some content else Some [] in
  let create_error (st : Store) (data : Data) : option jsstring :=
    match data_get (js "word_devanagari") data with
    | VString w => if str_eqb w (js "ख") then Some (js "rejected") else None
    | _ => None
    end in
  Migration.up readFile create_error [] = (Thrown (js "rejected"), []).
Proof.
  intros content readFile create_error.
  pose (row := fun w i : jsstring =>
          ({[ js "word_type" := js "verb"; js "word_devanagari" := w;
              js "order_index" := i ]} : Row)).
  apply (proj1 (up_all_or_nothing readFile create_error [])
           [Migration.verbData (row (js "क") (js "1"))]
           (Migration.verbData (row (js "ख") (js "2")))
           [Migration.verbData (row (js "ग") (js "3"))]).
  - vm_compute. reflexivity.
  - intros p1 d p2 Heq.
    destruct p1 as [| d' [| d'' p1]]; try discriminate Heq.
    injection Heq as <- _. reflexivity.
  - reflexivity.
Defined.

(** ** What the parser returns *)

Lemma cleanValue_nil : cleanValue [].
Proof. split; [reflexivity | intros []]. Qed.

Lemma cleanValue_trim (s : jsstring) : ~ In NEWLINE s -> cleanValue (trim s).
Proof.
  intros Hs. split; [apply trim_idem |].
  intros Hin. apply Hs. apply trim_In. exact Hin.
Qed.

Lemma cleanValue_or_empty (values : list jsstring) (index : nat) :
  Forall cleanValue values -> cleanValue (or_empty (values !! index)).
Proof.
  intros Hall. destruct (values !! index) as [v|] eqn:Hv;
    [| apply cleanValue_nil].
  rewrite or_empty_Some. rewrite Forall_forall in Hall.
  apply Hall. eapply list_elem_of_lookup_2. exact Hv.
Qed.

Lemma parseLine_from_clean (line : jsstring) :
  forall (values : list jsstring) (current : jsstring) (inQuotes : bool),
    ~ In NEWLINE line -> ~ In NEWLINE current -> Forall cleanValue values ->
    Forall cleanValue (Convert.parseLine_from line values current inQuotes).
Proof.
  remember (length line) as n eqn:Hn.
  assert (Hle : (length line <= n)%nat) by lia. clear Hn.
  revert line Hle.
  induction n as [| n IH]; intros line Hle values current inQuotes Hl Hc Hv.
  - destruct line; [| simpl in Hle; lia].
    simpl. apply Forall_app. split; [exact Hv |].
    apply Forall_cons_2; [apply cleanValue_trim, Hc | apply Forall_nil_2].
  - destruct line as [| char rest].
    { simpl. apply Forall_app. split; [exact Hv |].
      apply Forall_cons_2; [apply cleanValue_trim, Hc | apply Forall_nil_2]. }
    simpl in Hle.
    assert (Hrest : ~ In NEWLINE rest) by (intros H; apply Hl; right; exact H).
    assert (Hchar : char <> NEWLINE) by (intros ->; apply Hl; left; reflexivity).
    assert (Hq : ~ In NEWLINE (current ++ [DQUOTE])).
    { intros H. apply in_app_or in H as [H | [H | []]];
        [contradiction | discriminate H]. }
    assert (Hcc : ~ In NEWLINE (current ++ [char])).
    { intros H. apply in_app_or in H as [H | [H | []]];
        [contradiction | congruence]. }
    simpl. destruct (char =? DQUOTE).
    + destruct rest as [| nextChar rest'].
      * apply IH; [simpl; lia | assumption ..].
      * simpl in Hle. destruct (inQuotes && (nextChar =? DQUOTE)).
        -- apply IH; [lia | | assumption ..].
           intros H. apply Hrest. right. exact H.
        -- apply IH; [simpl; lia | assumption ..].
    + destruct ((char =? COMMA) && negb inQuotes).
      * apply IH; [lia | exact Hrest | intros [] |].
        apply Forall_app. split; [exact Hv |].
        apply Forall_cons_2; [apply cleanValue_trim, Hc | apply Forall_nil_2].
      * apply IH; [lia | assumption ..].
Qed.

Lemma parseLine_clean (line : jsstring) :
  ~ In NEWLINE line -> Forall cleanValue (Convert.parseLine line).
Proof.
  intros Hl. apply parseLine_from_clean;
    [exact Hl | intros [] | apply Forall_nil_2].
Qed.

Lemma row_set_clean (row : Row) (key value : jsstring) :
  cleanRow row -> cleanValue value -> cleanRow (row_set row key value).
Proof.
  intros Hrow Hval. unfold row_set. destruct (str_eqb key PROTO); [exact Hrow |].
  intros k v Hk. apply lookup_insert_Some in Hk as [[_ <-] | [_ Hk]];
    [exact Hval | exact (Hrow k v Hk)].
Qed.

Lemma forEach_header_clean (headers values : list jsstring) :
  Forall cleanValue values ->
  forall (index : nat) (row : Row),
    cleanRow row -> cleanRow (Convert.forEach_header headers index values row).
Proof.
  intros Hv. induction headers as [| h hs IH]; intros index row Hrow; simpl;
    [exact Hrow |].
  apply IH. apply row_set_clean; [exact Hrow |].
  apply cleanValue_or_empty, Hv.
Qed.

Lemma parseRows_clean (headers lines : list jsstring) :
  Forall (fun line => ~ In NEWLINE line) lines ->
  forall rows : list Row,
    Forall cleanRow rows ->
    Forall cleanRow (Convert.parseRows headers lines rows).
Proof.
  induction 1 as [| line lines Hline _ IH]; intros rows Hrows; simpl;
    [exact Hrows |].
  destruct (negb (Convert.hasContent (Convert.parseLine line)));
    [apply IH, Hrows |].
  apply IH. apply Forall_app. split; [exact Hrows |].
  apply Forall_cons_2; [| apply Forall_nil_2].
  apply forEach_header_clean; [apply parseLine_clean, Hline |].
  intros k v Hk. rewrite lookup_empty in Hk. discriminate.
Qed.

Lemma filter_Forall {A} (P : A -> Prop) (f : A -> bool) (l : list A) :
  Forall P l -> Forall P (List.filter f l).
Proof.
  induction 1 as [| x l Hx _ IH]; simpl; [apply Forall_nil_2 |].
  destruct (f x); [apply Forall_cons_2; assumption | exact IH].
Qed.

(** Every value of every record of the parser is trimmed and has no
    newline. *)
Lemma parseCSV_clean (content : jsstring) :
  Forall cleanRow (Convert.parseCSV content).
Proof.
  unfold Convert.parseCSV.
  pose proof (filter_Forall _ (fun line => truthy (trim line)) _
                (split_no_newline NEWLINE content)) as Hlines.
  destruct (List.filter _ _) as [| line0 lines]; [apply Forall_nil_2 |].
  apply Forall_cons in Hlines as [_ Hlines].
  apply parseRows_clean; [exact Hlines | apply Forall_nil_2].
Qed.

(** ** The converted records *)

Lemma trim_no_ws (s : jsstring) :
  Forall (fun c => is_ws c = false) s -> trim s = s.
Proof.
  intros Hs. unfold trim.
  assert (Hstart : trimStart s = s).
  { destruct Hs as [| c r Hc _]; [reflexivity | apply trimStart_id, Hc]. }
  rewrite Hstart. unfold trimEnd.
  destruct (rev s) as [| c r] eqn:Hr.
  - apply (f_equal (@rev N)) in Hr. rewrite rev_involutive in Hr.
    subst s. reflexivity.
  - rewrite trimStart_id; [rewrite <- Hr; apply rev_involutive |].
    rewrite Forall_forall in Hs. apply Hs.
    apply list_elem_of_In, in_rev. rewrite Hr. left. reflexivity.
Qed.

Lemma units_of_uint_digits (d : Decimal.uint) :
  Forall (fun c => 48 <= c <= 57) (units_of_uint d).
Proof.
  induction d; simpl; [apply Forall_nil_2 | ..];
    (apply Forall_cons_2; [lia | assumption]).
Qed.

Lemma digit_not_ws (c : N) : 48 <= c <= 57 -> is_ws c = false /\ c <> NEWLINE.
Proof.
  intros Hc. unfold is_ws, NEWLINE. split; [| lia].
  repeat (apply orb_false_iff; split); try (apply N.eqb_neq; lia).
  apply andb_false_iff. left. apply N.leb_gt. lia.
Qed.

Lemma cleanValue_String_of_nat (n : nat) : cleanValue (String_of_nat n).
Proof.
  unfold String_of_nat.
  pose proof (units_of_uint_digits (Nat.to_uint n)) as Hd.
  split.
  - apply trim_no_ws. eapply Forall_impl; [exact Hd |].
    intros c Hc. apply digit_not_ws, Hc.
  - intros Hin. rewrite Forall_forall in Hd.
    apply list_elem_of_In in Hin. apply Hd, digit_not_ws in Hin. tauto.
Qed.

Lemma cleanValue_cleanText (row : Row) (key : jsstring) :
  cleanRow row -> cleanValue (Convert.cleanText (row !! key)).
Proof.
  intros Hrow. unfold Convert.cleanText.
  destruct (row !! key) as [t|] eqn:Ht; [| apply cleanValue_nil].
  destruct (_ || _); [apply cleanValue_nil |].
  apply cleanValue_trim. apply (Hrow key t Ht).
Qed.

Lemma cleanValue_lookup (row : Row) (key : jsstring) :
  cleanRow row -> cleanValue (or_empty (row !! key)).
Proof.
  intros Hrow. destruct (row !! key) as [t|] eqn:Ht; [| apply cleanValue_nil].
  rewrite or_empty_Some. apply (Hrow key t Ht).
Qed.

Lemma cleanValue_mapVoice (unicode_upper : jsstring -> jsstring)
    (pada : option jsstring) :
  cleanValue (Convert.mapVoice unicode_upper pada).
Proof.
  unfold Convert.mapVoice. cbv zeta.
  repeat (destruct (opt_eqb _ _); [clean_constant |]). apply cleanValue_nil.
Qed.

Lemma cleanValue_mapGender (linga : option jsstring) :
  cleanValue (Convert.mapGender linga).
Proof.
  unfold Convert.mapGender.
  repeat (destruct (opt_eqb _ _); [clean_constant |]). apply cleanValue_nil.
Qed.

Lemma cleanValue_determineSubtype (linga : option jsstring) :
  cleanValue (Convert.determineSubtype linga).
Proof.
  unfold Convert.determineSubtype.
  repeat (destruct (opt_eqb _ _); [clean_constant |]).
  destruct (existsb _ _); [clean_constant | apply cleanValue_nil].
Qed.

Lemma cleanValue_verb_class (row : Row) (key : jsstring) :
  cleanRow row ->
  cleanValue (if truthy (or_empty (row !! key))
                 && negb (opt_eqb (row !! key) (js "-"))
              then or_empty (row !! key) else []).
Proof.
  intros Hrow. destruct (_ && _);
    [apply cleanValue_lookup, Hrow | apply cleanValue_nil].
Qed.

(** An object literal with the headers as property names and clean values,
    one of them not empty, is a row of the round trip. *)
Lemma object_plainRow (headers : list jsstring)
    (props : list (jsstring * jsstring)) :
  headers = props.*1 ->
  Forall (fun kv => cleanValue kv.2) props ->
  (exists k v, Convert.object props !! k = Some v /\ v <> []) ->
  plainRow headers (Convert.object props).
Proof.
  intros -> Hvals Hsome. split; [| split; [| exact Hsome]].
  - unfold Convert.object. apply dom_list_to_map_L.
  - intros k v Hk. apply elem_of_list_to_map_2 in Hk.
    rewrite Forall_forall in Hvals. apply (Hvals (k, v) Hk).
Qed.

#[local] Hint Resolve cleanValue_String_of_nat cleanValue_cleanText
  cleanValue_lookup cleanValue_mapVoice cleanValue_mapGender
  cleanValue_determineSubtype cleanValue_verb_class cleanValue_nil : clean.

Lemma convertVerb_plainRow (unicode_upper : jsstring -> jsstring)
    (row : Row) (index : nat) :
  cleanRow row ->
  plainRow Convert.verbsHeaders (Convert.convertVerb unicode_upper row index).
Proof.
  intros Hrow. apply object_plainRow.
  - reflexivity.
  - clean_props.
  - exists (js "word_type"), (js "verb"). split; [reflexivity | discriminate].
Qed.

Lemma convertSubstantive_plainRow (row : Row) (index : nat) :
  cleanRow row ->
  plainRow Convert.substantivesHeaders (Convert.convertSubstantive row index).
Proof.
  intros Hrow. apply object_plainRow.
  - reflexivity.
  - clean_props.
  - exists (js "word_type"), (js "substantive").
    split; [reflexivity | discriminate].
Qed.

Lemma convertIndeclinable_plainRow (row : Row) (index : nat) :
  cleanRow row ->
  plainRow Convert.indeclinablesHeaders (Convert.convertIndeclinable row index).
Proof.
  intros Hrow. apply object_plainRow.
  - reflexivity.
  - clean_props.
  - exists (js "word_type"), (js "indeclinable").
    split; [reflexivity | discriminate].
Qed.

(** ** Numbers written and read back *)

Lemma parse_digits_units (d : Decimal.uint) :
  forall a : N,
    parse_digits 10 (units_of_uint d) (Some a)
    = Some (N.of_nat (Nat.of_uint_acc d (N.to_nat a))).
Proof.
  induction d as [| d IH | d IH | d IH | d IH | d IH | d IH | d IH | d IH
                  | d IH | d IH];
    intros a.
  { simpl. rewrite N2Nat.id. reflexivity. }
  all: simpl units_of_uint; simpl Nat.of_uint_acc.
  all: match goal with
       | |- parse_digits 10 (?c :: ?r) (Some ?a) = _ =>
         change (parse_digits 10 (c :: r) (Some a))
           with (parse_digits 10 r (Some (a * 10 + (c - 48))))
       end.
  all: rewrite IH; do 3 f_equal; rewrite Nat.tail_mul_spec; lia.
Qed.

Lemma to_uint_not_Nil (n : nat) : Nat.to_uint n <> Decimal.Nil.
Proof.
  intros H. pose proof (DecimalNat.Unsigned.of_to n) as Hn.
  rewrite H in Hn. simpl in Hn. subst n. discriminate H.
Qed.

Lemma parse_digits_start (d : Decimal.uint) :
  d <> Decimal.Nil ->
  parse_digits 10 (units_of_uint d) None = Some (N.of_nat (Nat.of_uint d)).
Proof.
  intros Hd. unfold Nat.of_uint.
  destruct d as [| d | d | d | d | d | d | d | d | d | d]; [congruence | ..].
  all: simpl units_of_uint; simpl Nat.of_uint_acc.
  all: match goal with
       | |- parse_digits 10 (?c :: ?r) None = _ =>
         change (parse_digits 10 (c :: r) None)
           with (parse_digits 10 r (Some (0 * 10 + (c - 48))))
       end.
  all: rewrite parse_digits_units; do 3 f_equal; rewrite Nat.tail_mul_spec; lia.
Qed.

Lemma parseInt_digits (d : Decimal.uint) :
  d <> Decimal.Nil ->
  parseInt (units_of_uint d) = Num (Z.of_nat (Nat.of_uint d)).
Proof.
  intros Hd.
  assert (Hnum : forall n : nat, (1 * Z.of_N (N.of_nat n))%Z = Z.of_nat n)
    by (intros; lia).
  pose proof (parse_digits_start d Hd) as Hp.
  destruct d as [| d | d | d | d | d | d | d | d | d | d]; [congruence | ..].
  2-10: unfold parseInt; simpl units_of_uint in *; simpl trimStart; cbv iota beta;
    rewrite Hp, Hnum; reflexivity.
  destruct d as [| d | d | d | d | d | d | d | d | d | d]; [reflexivity | ..].
  all: unfold parseInt; simpl units_of_uint in *; simpl trimStart;
    cbv iota beta; simpl orb; cbv iota beta; rewrite Hp, Hnum; reflexivity.
Qed.

Lemma parseInt_String_of_nat (n : nat) :
  parseInt (String_of_nat n) = Num (Z.of_nat n).
Proof.
  unfold String_of_nat. rewrite parseInt_digits by apply to_uint_not_Nil.
  rewrite DecimalNat.Unsigned.of_to. reflexivity.
Qed.

Lemma String_of_nat_truthy (n : nat) : truthy (String_of_nat n) = true.
Proof.
  unfold String_of_nat. pose proof (to_uint_not_Nil n) as Hn.
  destruct (Nat.to_uint n); [congruence | reflexivity ..].
Qed.

(** ** From the converted files to the import *)

Lemma verbsHeaders_plain : Forall plainHeader Convert.verbsHeaders.
Proof. unfold Convert.verbsHeaders. plain_headers. Qed.

Lemma substantivesHeaders_plain : Forall plainHeader Convert.substantivesHeaders.
Proof. unfold Convert.substantivesHeaders. plain_headers. Qed.

Lemma indeclinablesHeaders_plain :
  Forall plainHeader Convert.indeclinablesHeaders.
Proof. unfold Convert.indeclinablesHeaders. plain_headers. Qed.

Lemma Forall_imap_rows (P Q : Row -> Prop) (f : nat -> Row -> Row)
    (rows : list Row) :
  (forall i row, P row -> Q (f i row)) ->
  Forall P rows -> Forall Q (imap f rows).
Proof.
  intros Hf Hrows. apply Forall_lookup_2. intros i x Hx.
  rewrite list_lookup_imap in Hx.
  destruct (rows !! i) as [row|] eqn:Hrow; [| discriminate].
  injection Hx as <-. apply Hf.
  rewrite Forall_forall in Hrows. apply Hrows.
  eapply list_elem_of_lookup_2. exact Hrow.
Qed.

(** The parser reads the converted files back as the converted records. *)
Lemma parseCSV_verbsCSV (unicode_upper : jsstring -> jsstring)
    (content : jsstring) :
  Convert.parseCSV (Convert.verbsCSV unicode_upper content)
  = Convert.convertedVerbs unicode_upper (Convert.parseCSV content).
Proof.
  apply parseCSV_arrayToCSV;
    [apply verbsHeaders_plain | discriminate |].
  apply (Forall_imap_rows cleanRow); [| apply parseCSV_clean].
  intros i row Hrow. apply convertVerb_plainRow, Hrow.
Qed.

Lemma parseCSV_substantivesCSV (content : jsstring) :
  Convert.parseCSV (Convert.substantivesCSV content)
  = Convert.convertedSubstantives (Convert.parseCSV content).
Proof.
  apply parseCSV_arrayToCSV;
    [apply substantivesHeaders_plain | discriminate |].
  apply (Forall_imap_rows cleanRow); [| apply parseCSV_clean].
  intros i row Hrow. apply convertSubstantive_plainRow, Hrow.
Qed.

Lemma parseCSV_indeclinablesCSV (content : jsstring) :
  Convert.parseCSV (Convert.indeclinablesCSV content)
  = Convert.convertedIndeclinables (Convert.parseCSV content).
Proof.
  apply parseCSV_arrayToCSV;
    [apply indeclinablesHeaders_plain | discriminate |].
  apply (Forall_imap_rows cleanRow); [| apply parseCSV_clean].
  intros i row Hrow. apply convertIndeclinable_plainRow, Hrow.
Qed.

Lemma cleanText_trimmed (text : option jsstring) :
  trim (Convert.cleanText text) = Convert.cleanText text.
Proof.
  unfold Convert.cleanText. destruct text as [t|]; [| reflexivity].
  destruct (_ || _); [reflexivity | apply trim_idem].
Qed.

Lemma emptyDevanagari_cleaned (record : Row) (text : option jsstring) :
  record !! js "word_devanagari" = Some (Convert.cleanText text) ->
  Migration.emptyDevanagari record = negb (truthy (Convert.cleanText text)).
Proof.
  intros Hw. unfold Migration.emptyDevanagari. rewrite Hw, cleanText_trimmed.
  destruct (Convert.cleanText text); reflexivity.
Qed.

Lemma order_index_read (record : Row) (index : nat) :
  record !! js "order_index" = Some (String_of_nat (index + 1)) ->
  Migration.parseInt_or_undefined (record !! js "order_index")
  = VNumber (Num (Z.of_nat (index + 1))).
Proof.
  intros ->. unfold Migration.parseInt_or_undefined.
  rewrite or_empty_Some, String_of_nat_truthy, parseInt_String_of_nat.
  reflexivity.
Qed.

(** The insertions made for converted records: one for every position kept,
    with the position plus one as [order_index]. *)
Lemma order_index_converted (data_of : Row -> Data)
    (convert : Row -> nat -> Row) (key : jsstring) (rows : list Row) :
  (forall row i,
     convert row i !! js "word_devanagari"
     = Some (Convert.cleanText (row !! key))) ->
  (forall row i,
     data_get (js "order_index") (data_of (convert row i))
     = VNumber (Num (Z.of_nat (i + 1)))) ->
  forall k,
    map (data_get (js "order_index"))
      (map data_of
         (List.filter (fun row => negb (Migration.emptyDevanagari row))
            (imap (fun index row => convert row (k + index)%nat) rows)))
    = map (fun i => VNumber (Num (Z.of_nat (i + 1))))
        (keptPositions key k rows).
Proof.
  intros Hw Ho. induction rows as [| row rows IH]; intros k; [reflexivity |].
  assert (Hshift : imap ((fun index row => convert row (k + index)%nat) ∘ S) rows
                   = imap (fun index row => convert row (S k + index)%nat) rows).
  { apply imap_ext. intros i x _. unfold compose. f_equal. lia. }
  specialize (IH (S k)).
  cbn [imap List.filter keptPositions]. rewrite Hshift.
  rewrite (emptyDevanagari_cleaned _ _ (Hw row (k + 0)%nat)), negb_involutive.
  destruct (truthy (Convert.cleanText (row !! key))).
  - cbn [map]. rewrite Ho, IH. do 3 f_equal. lia.
  - exact IH.
Qed.

Lemma convertVerb_word (unicode_upper : jsstring -> jsstring) (row : Row)
    (i : nat) :
  Convert.convertVerb unicode_upper row i !! js "word_devanagari"
  = Some (Convert.cleanText (row !! js "धातु")).
Proof. reflexivity. Qed.

Lemma convertVerb_order (unicode_upper : jsstring -> jsstring) (row : Row)
    (i : nat) :
  Convert.convertVerb unicode_upper row i !! js "order_index"
  = Some (String_of_nat (i + 1)).
Proof. reflexivity. Qed.

Lemma verbData_order (record : Row) :
  data_get (js "order_index") (Migration.verbData record)
  = Migration.parseInt_or_undefined (record !! js "order_index").
Proof. reflexivity. Qed.

Lemma verbs_order_index (unicode_upper : jsstring -> jsstring)
    (content : jsstring) :
  map (data_get (js "order_index"))
    (Run.toInsert Migration.verbData (Convert.verbsCSV unicode_upper content))
  = map (fun i => VNumber (Num (Z.of_nat (i + 1))))
      (keptPositions (js "धातु") 0 (Convert.parseCSV content)).
Proof.
  unfold Run.toInsert. rewrite parseCSV_copies, parseCSV_verbsCSV.
  exact (order_index_converted Migration.verbData
           (Convert.convertVerb unicode_upper) (js "धातु")
           (Convert.parseCSV content)
           (convertVerb_word unicode_upper)
           (fun row i =>
              eq_trans (verbData_order _)
                (order_index_read _ i (convertVerb_order unicode_upper row i)))
           0%nat).
Qed.

Lemma convertSubstantive_word (row : Row) (i : nat) :
  Convert.convertSubstantive row i !! js "word_devanagari"
  = Some (Convert.cleanText (row !! js "सुबन्तं")).
Proof. reflexivity. Qed.

Lemma convertSubstantive_order (row : Row) (i : nat) :
  Convert.convertSubstantive row i !! js "order_index"
  = Some (String_of_nat (i + 1)).
Proof. reflexivity. Qed.

Lemma substantiveData_order (record : Row) :
  data_get (js "order_index") (Migration.substantiveData record)
  = Migration.parseInt_or_undefined (record !! js "order_index").
Proof. reflexivity. Qed.

Lemma substantives_order_index (content : jsstring) :
  map (data_get (js "order_index"))
    (Run.toInsert Migration.substantiveData (Convert.substantivesCSV content))
  = map (fun i => VNumber (Num (Z.of_nat (i + 1))))
      (keptPositions (js "सुबन्तं") 0 (Convert.parseCSV content)).
Proof.
  unfold Run.toInsert. rewrite parseCSV_copies, parseCSV_substantivesCSV.
  exact (order_index_converted Migration.substantiveData
           Convert.convertSubstantive (js "सुबन्तं")
           (Convert.parseCSV content)
           convertSubstantive_word
           (fun row i =>
              eq_trans (substantiveData_order _)
                (order_index_read _ i (convertSubstantive_order row i)))
           0%nat).
Qed.

Lemma convertIndeclinable_word (row : Row) (i : nat) :
  Convert.convertIndeclinable row i !! js "word_devanagari"
  = Some (Convert.cleanText (row !! js "अव्यय")).
Proof. reflexivity. Qed.

Lemma convertIndeclinable_order (row : Row) (i : nat) :
  Convert.convertIndeclinable row i !! js "order_index"
  = Some (String_of_nat (i + 1)).
Proof. reflexivity. Qed.

Lemma indeclinableData_order (record : Row) :
  data_get (js "order_index") (Migration.indeclinableData record)
  = Migration.parseInt_or_undefined (record !! js "order_index").
Proof. reflexivity. Qed.

Lemma indeclinables_order_index (content : jsstring) :
  map (data_get (js "order_index"))
    (Run.toInsert Migration.indeclinableData
       (Convert.indeclinablesCSV content))
  = map (fun i => VNumber (Num (Z.of_nat (i + 1))))
      (keptPositions (js "अव्यय") 0 (Convert.parseCSV content)).
Proof.
  unfold Run.toInsert. rewrite parseCSV_copies, parseCSV_indeclinablesCSV.
  exact (order_index_converted Migration.indeclinableData
           Convert.convertIndeclinable (js "अव्यय")
           (Convert.parseCSV content)
           convertIndeclinable_word
           (fun row i =>
              eq_trans (indeclinableData_order _)
                (order_index_read _ i (convertIndeclinable_order row i)))
           0%nat).
Qed.

Lemma toInsert_hasDevanagari (data_of : Row -> Data) (content : jsstring) :
  (forall row,
     data_get (js "word_devanagari") (data_of row)
     = Migration.val (row !! js "word_devanagari")) ->
  Forall hasDevanagari (Run.toInsert data_of content).
Proof.
  intros Hd. unfold Run.toInsert. apply Forall_map.
  apply Forall_forall. intros row Hrow.
  apply list_elem_of_In, filter_In in Hrow as [_ Hkeep].
  unfold hasDevanagari. rewrite Hd.
  unfold Migration.emptyDevanagari in Hkeep.
  destruct (row !! js "word_devanagari") as [w|]; [| discriminate].
  exists w. split; [reflexivity |].
  apply negb_true_iff, orb_false_iff in Hkeep as [_ Hw].
  apply str_eqb_neq in Hw. exact Hw.
Qed.

Lemma verbData_word (row : Row) :
  data_get (js "word_devanagari") (Migration.verbData row)
  = Migration.val (row !! js "word_devanagari").
Proof. reflexivity. Qed.

Lemma substantiveData_word (row : Row) :
  data_get (js "word_devanagari") (Migration.substantiveData row)
  = Migration.val (row !! js "word_devanagari").
Proof. reflexivity. Qed.

Lemma indeclinableData_word (row : Row) :
  data_get (js "word_devanagari") (Migration.indeclinableData row)
  = Migration.val (row !! js "word_devanagari").
Proof. reflexivity. Qed.

Lemma planned_hasDevanagari (readFile : jsstring -> option jsstring) :
  Forall hasDevanagari (Run.planned readFile).
Proof.
  unfold Run.planned.
  destruct (readFile (js "verbs-for-import.csv")) as [cv|];
    [| apply Forall_nil_2].
  apply Forall_app. split;
    [exact (toInsert_hasDevanagari _ cv verbData_word) |].
  destruct (readFile (js "substantives-for-import.csv")) as [cs|];
    [| apply Forall_nil_2].
  apply Forall_app. split;
    [exact (toInsert_hasDevanagari _ cs substantiveData_word) |].
  destruct (readFile (js "indeclinables-for-import.csv")) as [ci|];
    [| apply Forall_nil_2].
  exact (toInsert_hasDevanagari _ ci indeclinableData_word).
Qed.

(** C2 (amended).  The import never inserts an entry without a word: whatever
    the files and the datastore do, every record a run adds has a
    [word_devanagari] that is not blank.  The convert script does not drop
    anything: the records read back from each file it writes are the converted
    records of all the rows parsed from the spreadsheet, one for each row. *)
Theorem empty_devanagari_skipped_by_import :
  (forall (readFile : jsstring -> option jsstring)
          (create_error : Store -> Data -> option jsstring) (st : Store),
     exists added,
       snd (Migration.up readFile create_error st) = st ++ added
       /\ Forall hasDevanagari added)
  /\ (forall (unicode_upper : jsstring -> jsstring) (content : jsstring),
        Convert.parseCSV (Convert.verbsCSV unicode_upper content)
        = Convert.convertedVerbs unicode_upper (Convert.parseCSV content)
        /\ length (Convert.convertedVerbs unicode_upper
                     (Convert.parseCSV content))
           = length (Convert.parseCSV content))
  /\ (forall content : jsstring,
        Convert.parseCSV (Convert.substantivesCSV content)
        = Convert.convertedSubstantives (Convert.parseCSV content)
        /\ length (Convert.convertedSubstantives (Convert.parseCSV content))
           = length (Convert.parseCSV content))
  /\ (forall content : jsstring,
        Convert.parseCSV (Convert.indeclinablesCSV content)
        = Convert.convertedIndeclinables (Convert.parseCSV content)
        /\ length (Convert.convertedIndeclinables (Convert.parseCSV content))
           = length (Convert.parseCSV content)).
Proof.
  split; [| split; [| split]].
  - intros readFile create_error st.
    pose proof (RunFacts.up_planned readFile create_error st) as Hup.
    destruct (Run.run_creates create_error (Run.planned readFile) st)
      as [[e|] st'] eqn:Hrun.
    + exists []. rewrite Hup, app_nil_r. split; [reflexivity | apply Forall_nil_2].
    + destruct Hup as [[stats Hup] | Hup]; rewrite Hup; simpl.
      * exists (Run.planned readFile).
        split; [eapply RunFacts.run_creates_None, Hrun | apply planned_hasDevanagari].
      * exists []. rewrite app_nil_r. split; [reflexivity | apply Forall_nil_2].
  - intros uu content.
    split; [apply parseCSV_verbsCSV | apply length_imap].
  - intros content.
    split; [apply parseCSV_substantivesCSV | apply length_imap].
  - intros content.
    split; [apply parseCSV_indeclinablesCSV | apply length_imap].
Qed.

(** C2 as stated fails for the convert script: a row of the verbs spreadsheet
    with an empty word is written to the converted file, with an empty
    [word_devanagari]. *)
Lemma empty_devanagari_row_emitted :
  let content := js "धातु,गण
,1" in
  map (fun row : Row => row !! js "धातु") (Convert.parseCSV content)
    = [Some []]
  /\ split NEWLINE (Convert.verbsCSV (fun s => s) content)
     = [ join COMMA Convert.verbsHeaders;
         join COMMA
           (map Convert.quoteField
              [ js "verb"; []; []; js "1"; []; []; []; []; []; []; []; []; [];
                []; []; []; []; []; []; js "true"; js "1" ]) ]
  /\ map (fun row : Row => row !! js "word_devanagari")
       (Migration.parseCSV (Convert.verbsCSV (fun s => s) content))
     = [Some []].
Proof.
  intros content. split; [| split]; vm_compute; reflexivity.
Qed.

(** C4.  Every converted record has as [order_index] its position, counted
    from one, among all the rows the parser returned for the spreadsheet.  The
    import of the converted files inserts, for every row kept, a record with
    that position as [order_index]; the positions of the rows skipped are
    missing, as in the last part, where the numbers stored are 1 and 3. *)
Theorem order_index_is_parsed_position :
  (forall (unicode_upper : jsstring -> jsstring) (rows : list Row) (i : nat)
          (record : Row),
     Convert.convertedVerbs unicode_upper rows !! i = Some record
     \/ Convert.convertedSubstantives rows !! i = Some record
     \/ Convert.convertedIndeclinables rows !! i = Some record ->
     record !! js "order_index" = Some (String_of_nat (i + 1)))
  /\ (forall (unicode_upper : jsstring -> jsstring)
             (verbsContent substantivesContent indeclinablesContent : jsstring)
             (create_error : Store -> Data -> option jsstring)
             (st st' : Store) (stats : Migration.Stats),
        Migration.up
          (Convert.written unicode_upper verbsContent substantivesContent
             indeclinablesContent)
          create_error st
        = (Returned stats, st') ->
        exists added,
          st' = st ++ added
          /\ map (data_get (js "order_index")) added
             = map (fun i => VNumber (Num (Z.of_nat (i + 1))))
                 (keptPositions (js "धातु") 0 (Convert.parseCSV verbsContent)
                  ++ keptPositions (js "सुबन्तं") 0
                       (Convert.parseCSV substantivesContent)
                  ++ keptPositions (js "अव्यय") 0
                       (Convert.parseCSV indeclinablesContent)))
  /\ map (data_get (js "order_index"))
       (snd (Migration.up
               (Convert.written (fun s => s)
                  (js "धातु,गण
गम्,1
,2
अस्,2") [] [])
               (fun _ _ => None) []))
     = [VNumber (Num 1); VNumber (Num 3)].
Proof.
  split; [| split].
  - intros uu rows i record Hi.
    unfold Convert.convertedVerbs, Convert.convertedSubstantives,
      Convert.convertedIndeclinables in Hi.
    rewrite !list_lookup_imap in Hi.
    destruct (rows !! i) as [row|]; simpl in Hi;
      [| destruct Hi as [Hi | [Hi | Hi]]; discriminate Hi].
    destruct Hi as [[= <-] | [[= <-] | [= <-]]]; reflexivity.
  - intros uu cv cs ci create_error st st' stats Hup.
    apply RunFacts.up_returned in Hup. exists (Run.planned (Convert.written uu cv cs ci)).
    split; [exact Hup |].
    unfold Run.planned, Convert.written. simpl.
    rewrite !map_app, verbs_order_index, substantives_order_index,
      indeclinables_order_index.
    reflexivity.
  - vm_compute. reflexivity.
Qed.

Lemma order_index_is_parsed_position_witness :
  let content := js "धातु,गण
गम्,1
,2
अस्,2" in
  exists added,
    snd (Migration.up (Convert.written (fun s => s) content [] [])
           (fun _ _ => None) []) = [] ++ added
    /\ map (data_get (js "order_index")) added
       = map (fun i => VNumber (Num (Z.of_nat (i + 1))))
           (keptPositions (js "धातु") 0 (Convert.parseCSV content)
            ++ keptPositions (js "सुबन्तं") 0 (Convert.parseCSV [])
            ++ keptPositions (js "अव्यय") 0 (Convert.parseCSV [])).
Proof.
  intros content.
  apply (proj1 (proj2 order_index_is_parsed_position) (fun s => s) content [] []
           (fun _ _ => None) []
           (snd (Migration.up (Convert.written (fun s => s) content [] [])
                   (fun _ _ => None) []))
           {| Migration.verbs := 2; Migration.substantives := 0;
              Migration.indeclinables := 0 |}).
  vm_compute. reflexivity.
Defined.

(** * Further properties *)

(** ** Lines and fields *)

Lemma split_not_nil (sep : N) (s : jsstring) : split sep s <> [].
Proof.
  induction s as [| c r IH]; simpl; [discriminate |].
  destruct (c =? sep); [discriminate |].
  destruct (split sep r); [congruence | discriminate].
Qed.

Lemma parseLine_from_no_quote (line : jsstring) :
  forall (values : list jsstring) (current : jsstring),
    ~ In DQUOTE line ->
    Convert.parseLine_from line values current false
    = values ++ match split COMMA line with
                | f :: fs => trim (current ++ f) :: map trim fs
                | [] => [trim current]
                end.
Proof.
  induction line as [| c r IH]; intros values current Hq; simpl.
  - rewrite app_nil_r. reflexivity.
  - assert (Hr : ~ In DQUOTE r) by (intros H; apply Hq; right; exact H).
    destruct (N.eqb_spec c DQUOTE) as [-> | Hne];
      [exfalso; apply Hq; left; reflexivity |].
    pose proof (split_not_nil COMMA r) as Hsplit.
    destruct (c =? COMMA); simpl.
    + rewrite IH by exact Hr.
      destruct (split COMMA r) as [| f fs]; [congruence |].
      rewrite app_nil_r, <- app_assoc. reflexivity.
    + rewrite IH by exact Hr.
      destruct (split COMMA r) as [| f fs]; [congruence |].
      rewrite <- app_assoc. reflexivity.
Qed.

Lemma parseLine_no_quote (line : jsstring) :
  ~ In DQUOTE line -> Convert.parseLine line = map trim (split COMMA line).
Proof.
  intros Hq. unfold Convert.parseLine.
  rewrite parseLine_from_no_quote by exact Hq.
  pose proof (split_not_nil COMMA line) as Hs.
  destruct (split COMMA line); [congruence | reflexivity].
Qed.

(** X1.  A line without a double quote is cut at every comma, and every piece
    is trimmed: the fields are the trimmed pieces, in both copies of the
    parser. *)
Theorem parseLine_without_quotes (line : jsstring) :
  ~ In DQUOTE line ->
  Convert.parseLine line = map trim (split COMMA line)
  /\ Migration.parseLine line = map trim (split COMMA line).
Proof.
  intros Hq. pose proof (parseLine_no_quote line Hq) as Hc.
  split; [exact Hc |].
  etransitivity; [apply parseLine_copies | exact Hc].
Qed.

Lemma parseLine_without_quotes_witness :
  Convert.parseLine (js " गम् , 1,,P ") = [js "गम्"; js "1"; []; js "P"]
  /\ Migration.parseLine (js " गम् , 1,,P ") = [js "गम्"; js "1"; []; js "P"].
Proof.
  apply (parseLine_without_quotes (js " गम् , 1,,P ")). not_in_string.
Defined.

(** X2.  Fields written by [arrayToCSV] are read back by the parser: whatever
    the values hold (commas, double quotes, newlines), the line of the quoted
    values joined by commas is read as the same values, trimmed. *)
Theorem quoted_fields_read_back (values : list jsstring) :
  values <> [] ->
  Convert.parseLine (join COMMA (map Convert.quoteField values))
  = map trim values
  /\ Migration.parseLine (join COMMA (map Convert.quoteField values))
     = map trim values.
Proof.
  intros Hne.
  assert (Hc : Convert.parseLine (join COMMA (map Convert.quoteField values))
               = map trim values)
    by (apply (parseLine_from_join_quoted values []), Hne).
  split; [exact Hc |].
  etransitivity; [apply parseLine_copies | exact Hc].
Qed.

Lemma quoted_fields_read_back_witness :
  Convert.parseLine
    (join COMMA
       (map Convert.quoteField
          [js "a,b"; [DQUOTE] ++ js "x" ++ [DQUOTE; COMMA; NEWLINE]; js " y"]))
  = [js "a,b"; [DQUOTE] ++ js "x" ++ [DQUOTE; COMMA]; js "y"].
Proof.
  apply (proj1 (quoted_fields_read_back
                  [js "a,b"; [DQUOTE] ++ js "x" ++ [DQUOTE; COMMA; NEWLINE];
                   js " y"] ltac:(discriminate))).
Defined.

(** ** The records of the parser *)

(** The loop over the data lines, as a map over the lines with content. *)
Lemma parseRows_contentLines (headers lines : list jsstring) :
  forall rows : list Row,
    Convert.parseRows headers lines rows
    = rows ++ map (fun line =>
                     Convert.forEach_header headers 0 (Convert.parseLine line) ∅)
                  (contentLines lines).
Proof.
  induction lines as [| line lines IH]; intros rows; simpl.
  - rewrite app_nil_r. reflexivity.
  - unfold contentLines in *. simpl.
    destruct (Convert.hasContent (Convert.parseLine line)); simpl.
    + rewrite IH, <- app_assoc. reflexivity.
    + apply IH.
Qed.

Lemma parseCSV_lines (content line0 : jsstring) (lines : list jsstring) :
  nonBlankLines content = line0 :: lines ->
  Convert.parseCSV content
  = map (fun line =>
           Convert.forEach_header (Convert.parseLine line0) 0
             (Convert.parseLine line) ∅)
        (contentLines lines).
Proof.
  intros Hl. unfold Convert.parseCSV. unfold nonBlankLines in Hl. rewrite Hl.
  apply (parseRows_contentLines _ _ []).
Qed.

(** X3.  Every value of every record the parser returns is trimmed and has no
    newline, in both copies. *)
Theorem parser_values_trimmed (content : jsstring) (row : Row)
    (k v : jsstring) :
  row ∈ Convert.parseCSV content \/ row ∈ Migration.parseCSV content ->
  row !! k = Some v ->
  trim v = v /\ ~ In NEWLINE v.
Proof.
  intros Hrow Hk.
  assert (Hin : row ∈ Convert.parseCSV content).
  { destruct Hrow as [H | H]; [exact H |]. rewrite <- parseCSV_copies. exact H. }
  pose proof (parseCSV_clean content) as Hall.
  rewrite Forall_forall in Hall. exact (Hall row Hin k v Hk).
Qed.

Lemma parser_values_trimmed_witness :
  trim (js "to go") = js "to go" /\ ~ In NEWLINE (js "to go").
Proof.
  apply (parser_values_trimmed
           (js "word,meaning
गम्,  to go  ")
           ({[ js "word" := js "गम्"; js "meaning" := js "to go" ]} : Row)
           (js "meaning") (js "to go")).
  - left. vm_compute. apply list_elem_of_here.
  - reflexivity.
Defined.

Lemma forEach_header_fields (headers values : list jsstring) :
  forall (index : nat) (row : Row) (k : jsstring),
    is_Some (Convert.forEach_header headers index values row !! k)
    <-> (k ∈ headers /\ k <> PROTO) \/ is_Some (row !! k).
Proof.
  induction headers as [| h hs IH]; intros index row k; simpl.
  - split; [tauto |]. intros [[Hin _] | H]; [inversion Hin | exact H].
  - rewrite IH. unfold row_set.
    destruct (str_eqb h PROTO) eqn:Hp.
    + apply str_eqb_eq in Hp. subst h. split.
      * intros [[Hin Hne] | H]; [left; split; [right |]; assumption | tauto].
      * intros [[Hin Hne] | H]; [| tauto].
        inversion Hin; subst; [congruence | left; tauto].
    + apply str_eqb_neq in Hp. rewrite lookup_insert_is_Some. split.
      * intros [[Hin Hne] | [-> | [_ H]]].
        -- left. split; [right |]; assumption.
        -- left. split; [left | exact Hp].
        -- right. exact H.
      * intros [[Hin Hne] | H].
        -- inversion Hin; subst; [right; left; reflexivity | left; tauto].
        -- destruct (decide (h = k)) as [-> | Hhk]; [right; left; reflexivity |].
           right. right. tauto.
Qed.

(** X4.  All the records of one parse have the same fields: the names read
    from the header line, [__proto__] left out.  A line with fewer values than
    headers still gets every field, a line with more gets no more. *)
Theorem parser_record_fields (content line0 : jsstring)
    (lines : list jsstring) (row : Row) (k : jsstring) :
  nonBlankLines content = line0 :: lines ->
  row ∈ Convert.parseCSV content ->
  is_Some (row !! k) <-> k ∈ Convert.parseLine line0 /\ k <> PROTO.
Proof.
  intros Hl Hrow. rewrite (parseCSV_lines _ _ _ Hl) in Hrow.
  apply list_elem_of_In, in_map_iff in Hrow as (line & <- & _).
  rewrite forEach_header_fields. split; [| tauto].
  intros [H | H]; [exact H |].
  rewrite lookup_empty in H. destruct H as [x Hx]. discriminate.
Qed.

Lemma parser_record_fields_witness :
  is_Some (({[ js "a" := js "1"; js "b" := []; js "c" := [] ]} : Row) !! js "c")
  <-> js "c" ∈ Convert.parseLine (js "a,b,c") /\ js "c" <> PROTO.
Proof.
  apply (parser_record_fields
           (js "a,b,c
1") (js "a,b,c") [js "1"]).
  - reflexivity.
  - vm_compute. apply list_elem_of_here.
Defined.

Lemma forEach_header_other (headers values : list jsstring) (k : jsstring) :
  forall (index : nat) (row : Row),
    k ∉ headers ->
    Convert.forEach_header headers index values row !! k = row !! k.
Proof.
  induction headers as [| h hs IH]; intros index row Hk; simpl; [reflexivity |].
  rewrite IH by (intros H; apply Hk; right; exact H).
  unfold row_set. destruct (str_eqb h PROTO); [reflexivity |].
  apply lookup_insert_ne. intros ->. apply Hk. left.
Qed.

Lemma forEach_header_position (headers values : list jsstring) :
  forall (index i : nat) (row : Row) (h : jsstring),
    headers !! i = Some h ->
    h <> PROTO ->
    (forall j, (i < j)%nat -> headers !! j <> Some h) ->
    Convert.forEach_header headers index values row !! h
    = Some (or_empty (values !! (index + i)%nat)).
Proof.
  induction headers as [| h0 hs IH]; intros index i row h Hi Hp Hlast;
    [discriminate |].
  destruct i as [| i]; simpl in Hi |- *.
  - injection Hi as ->. rewrite forEach_header_other.
    + unfold row_set. apply str_eqb_neq in Hp. rewrite Hp.
      rewrite Nat.add_0_r. apply lookup_insert_eq.
    + intros Hin. apply list_elem_of_lookup in Hin as [j Hj].
      apply (Hlast (S j)); [lia | exact Hj].
  - rewrite (IH (S index) i _ h Hi Hp).
    + do 3 f_equal. lia.
    + intros j Hj. apply (Hlast (S j)). lia.
Qed.

(** X5.  The values of a line go to the headers by position: in the record
    made of a data line, the header at position [i] (its last occurrence, and
    not [__proto__]) has the value at position [i] of the line, or the empty
    string when the line has fewer values. *)
Theorem parser_fields_by_position (content line0 : jsstring)
    (lines : list jsstring) (n i : nat) (line h : jsstring) :
  nonBlankLines content = line0 :: lines ->
  contentLines lines !! n = Some line ->
  Convert.parseLine line0 !! i = Some h ->
  h <> PROTO ->
  (forall j, (i < j)%nat -> Convert.parseLine line0 !! j <> Some h) ->
  exists row,
    Convert.parseCSV content !! n = Some row
    /\ row !! h = Some (default [] (Convert.parseLine line !! i)).
Proof.
  intros Hl Hn Hi Hp Hlast. rewrite (parseCSV_lines _ _ _ Hl).
  rewrite list_lookup_fmap, Hn. simpl. eexists. split; [reflexivity |].
  rewrite (forEach_header_position _ _ 0 i ∅ h Hi Hp Hlast). simpl.
  destruct (Convert.parseLine line !! i) as [v|]; [| reflexivity].
  rewrite or_empty_Some. reflexivity.
Qed.

Lemma parser_fields_by_position_witness :
  exists row,
    Convert.parseCSV (js "a,b,c
1,2
,,,
3,4,5,6") !! 1%nat = Some row
    /\ row !! js "c" = Some (default [] (Convert.parseLine (js "3,4,5,6") !! 2%nat)).
Proof.
  apply (parser_fields_by_position _ (js "a,b,c")
           [js "1,2"; js ",,,"; js "3,4,5,6"]).
  - reflexivity.
  - reflexivity.
  - reflexivity.
  - discriminate.
  - intros j Hj. destruct j as [| [| [| j]]]; try lia; discriminate.
Defined.

(** ** Blank lines and blank rows *)

Lemma trim_all_ws (s : jsstring) :
  Forall (fun c => is_ws c = true) s -> trim s = [].
Proof.
  intros Hs. apply trim_nil_iff, forallb_forall. intros c Hc.
  rewrite Forall_forall in Hs. apply Hs, list_elem_of_In, Hc.
Qed.

Lemma split_pieces (sep : N) (s piece : jsstring) (c : N) :
  In piece (split sep s) -> In c piece -> In c s /\ c <> sep.
Proof.
  revert piece. induction s as [| c0 r IH]; intros piece; simpl.
  - intros [<- | []] [].
  - destruct (N.eqb_spec c0 sep) as [-> | Hne].
    + intros [<- | Hp] Hc; [destruct Hc |].
      destruct (IH piece Hp Hc). tauto.
    + destruct (split sep r) as [| l ls] eqn:Hs.
      * intros [<- | []] [<- | []]. tauto.
      * intros [<- | Hp] Hc.
        -- destruct Hc as [<- | Hc]; [tauto |].
           destruct (IH l (or_introl eq_refl) Hc). tauto.
        -- destruct (IH piece (or_intror Hp) Hc). tauto.
Qed.

(** X6.  A data line made of commas and white space only gives no record:
    the parser skips it, in both copies. *)
Theorem blank_row_has_no_content (line : jsstring) :
  Forall (fun c => c = COMMA \/ is_ws c = true) line ->
  Convert.hasContent (Convert.parseLine line) = false
  /\ Migration.hasContent (Migration.parseLine line) = false
  /\ forall (headers lines : list jsstring) (rows : list Row),
       Convert.parseRows headers (line :: lines) rows
       = Convert.parseRows headers lines rows.
Proof.
  intros Hline.
  assert (Hq : ~ In DQUOTE line).
  { intros Hin. rewrite Forall_forall in Hline.
    apply list_elem_of_In in Hin. destruct (Hline _ Hin) as [H | H];
      discriminate H. }
  assert (Hc : Convert.hasContent (Convert.parseLine line) = false).
  { rewrite (parseLine_no_quote line Hq).
    unfold Convert.hasContent.
    apply not_true_is_false. intros Hex.
    apply existsb_exists in Hex as (v & Hv & Hcontent).
    apply in_map_iff in Hv as (piece & <- & Hpiece).
    rewrite trim_all_ws in Hcontent; [discriminate |].
    apply Forall_forall. intros c Hcin. apply list_elem_of_In in Hcin.
    destruct (split_pieces _ _ _ _ Hpiece Hcin) as [Hin Hne].
    rewrite Forall_forall in Hline. apply list_elem_of_In in Hin.
    destruct (Hline c Hin); [contradiction | assumption]. }
  split; [exact Hc | split].
  - rewrite parseLine_copies, hasContent_copies. exact Hc.
  - intros headers lines rows. simpl. rewrite Hc. reflexivity.
Qed.

Lemma blank_row_has_no_content_witness :
  Convert.hasContent (Convert.parseLine (js " , ,,  ")) = false.
Proof.
  apply (blank_row_has_no_content (js " , ,,  ")).
  repeat (apply Forall_cons_2; [first [left; reflexivity | right; reflexivity] |]).
  apply Forall_nil_2.
Defined.

(** ** Line endings *)








Lemma filter_idem {A} (f : A -> bool) (l : list A) :
  List.filter f (List.filter f l) = List.filter f l.
Proof.
  induction l as [| x l IH]; simpl; [reflexivity |].
  destruct (f x) eqn:Hx; simpl; [rewrite Hx, IH |]; auto.
Qed.

(** X8.  Blank lines are ignored wherever they are: a text parses as the text
    made of its lines that are not blank.  In particular a text of blank
    lines only, the empty text included, gives no record. *)
Theorem blank_lines_ignored (lines : list jsstring) :
  lines <> [] ->
  Forall (fun l => ~ In NEWLINE l) lines ->
  Convert.parseCSV (join NEWLINE lines)
  = Convert.parseCSV
      (join NEWLINE (List.filter (fun line => truthy (trim line)) lines))
  /\ (Forall (fun l => trim l = []) lines ->
      Convert.parseCSV (join NEWLINE lines) = []).
Proof.
  intros Hne Hall.
  assert (Hsplit : List.filter (fun line => truthy (trim line))
                     (split NEWLINE (join NEWLINE lines))
                   = List.filter (fun line => truthy (trim line)) lines)
    by (rewrite split_join by assumption; reflexivity).
  split.
  - unfold Convert.parseCSV at 1. rewrite Hsplit.
    destruct (List.filter _ lines) as [| l0 ls] eqn:Hf; [reflexivity |].
    unfold Convert.parseCSV. rewrite split_join.
    + rewrite <- Hf, filter_idem, Hf. reflexivity.
    + discriminate.
    + rewrite <- Hf. apply filter_Forall, Hall.
  - intros Hblank. unfold Convert.parseCSV. rewrite Hsplit.
    replace (List.filter _ lines) with (@nil jsstring); [reflexivity |].
    symmetry. clear Hsplit Hne Hall.
    induction Hblank as [| l ls Hl _ IH]; simpl; [reflexivity |].
    rewrite Hl. exact IH.
Qed.

Lemma blank_lines_ignored_witness :
  Convert.parseCSV (js "
a,b
  
1,2
")
  = Convert.parseCSV (js "a,b
1,2")
  /\ Convert.parseCSV (js "  
	
") = [].
Proof.
  split.
  - apply (proj1 (blank_lines_ignored [[]; js "a,b"; js "  "; js "1,2"; []]
                    ltac:(discriminate)
                    ltac:(repeat (apply Forall_cons_2; [not_in_string |]);
                          apply Forall_nil_2))).
  - apply (proj2 (blank_lines_ignored [js "  "; [9]; []]
                    ltac:(discriminate)
                    ltac:(repeat (apply Forall_cons_2; [not_in_string |]);
                          apply Forall_nil_2))).
    repeat (apply Forall_cons_2; [reflexivity |]). apply Forall_nil_2.
Defined.

(** ** Numbers *)


(** ** The import run, when nothing is rejected *)

Module RunCounts.
Import Migration.

Section RunCounts.

Variable readFile : jsstring -> option jsstring.
Variable create_error : Store -> Data -> option jsstring.

(** The loop of an import with its counter: when no insertion is rejected the
    counter has been bumped once for every insertion. *)
Lemma for_of_creates_count (data_of : Row -> Data) (bump : Stats -> Stats)
    (rows : list Row) :
  forall (stats : Stats) (st : Store),
    Run.accepted create_error st
      (map data_of
         (List.filter (fun row => negb (emptyDevanagari row)) rows)) ->
    for_of rows
      (fun row stats =>
         if emptyDevanagari row then ret stats
         else _ <- create create_error (data_of row) ;; ret (bump stats))
      stats st
    = (Returned
         (Nat.iter
            (length (List.filter (fun row => negb (emptyDevanagari row)) rows))
            bump stats),
       st ++ map data_of
               (List.filter (fun row => negb (emptyDevanagari row)) rows)).
Proof.
  induction rows as [| row rows IH]; intros stats st Hacc.
  - simpl. rewrite app_nil_r. reflexivity.
  - cbn [for_of]. cbn [List.filter] in *. unfold bind at 1.
    destruct (emptyDevanagari row) eqn:Hrow; cbn [negb] in *.
    + unfold ret at 1. apply IH, Hacc.
    + unfold bind at 1, create at 1.
      cbn [map] in Hacc.
      pose proof (Hacc [] _ _ eq_refl) as Hd. rewrite app_nil_r in Hd.
      rewrite Hd. unfold ret at 1. rewrite IH.
      * cbn [length map]. rewrite Nat.iter_succ_r, <- app_assoc. reflexivity.
      * intros p1 d p2 Hp. rewrite <- app_assoc.
        apply (Hacc (data_of row :: p1) d p2). rewrite Hp. reflexivity.
Qed.

Lemma import_file_count (name content : jsstring) (data_of : Row -> Data)
    (bump : Stats -> Stats) (stats : Stats) (st : Store) :
  readFile name = Some content ->
  Run.accepted create_error st (Run.toInsert data_of content) ->
  try_catch
    (fileContent <- readFileSync readFile name ;;
     for_of (parseCSV fileContent)
       (fun row stats =>
          if emptyDevanagari row then ret stats
          else _ <- create create_error (data_of row) ;; ret (bump stats))
       stats)
    (fun error => throw error) st
  = (Returned (Nat.iter (length (Run.toInsert data_of content)) bump stats),
     st ++ Run.toInsert data_of content).
Proof.
  intros Hfile Hacc. unfold try_catch. unfold bind at 1.
  unfold readFileSync. rewrite Hfile. unfold ret at 1.
  unfold Run.toInsert in *. rewrite for_of_creates_count by exact Hacc.
  rewrite length_map. reflexivity.
Qed.

End RunCounts.
End RunCounts.

Lemma accepted_app (create_error : Store -> Data -> option jsstring)
    (st : Store) (a b : list Data) :
  Run.accepted create_error st (a ++ b) ->
  Run.accepted create_error st a /\ Run.accepted create_error (st ++ a) b.
Proof.
  intros Hacc. split.
  - intros p1 d p2 ->. apply (Hacc p1 d (p2 ++ b)).
    rewrite <- app_assoc. reflexivity.
  - intros p1 d p2 ->. rewrite <- app_assoc. apply (Hacc (a ++ p1) d p2).
    rewrite <- app_assoc. reflexivity.
Qed.

Lemma iter_verbs (n : nat) (s : Migration.Stats) :
  Nat.iter n
    (fun stats =>
       {| Migration.verbs := S (Migration.verbs stats);
          Migration.substantives := Migration.substantives stats;
          Migration.indeclinables := Migration.indeclinables stats |}) s
  = {| Migration.verbs := n + Migration.verbs s;
       Migration.substantives := Migration.substantives s;
       Migration.indeclinables := Migration.indeclinables s |}.
Proof.
  induction n as [| n IH]; simpl; [destruct s; reflexivity |].
  rewrite IH. reflexivity.
Qed.

Lemma iter_substantives (n : nat) (s : Migration.Stats) :
  Nat.iter n
    (fun stats =>
       {| Migration.verbs := Migration.verbs stats;
          Migration.substantives := S (Migration.substantives stats);
          Migration.indeclinables := Migration.indeclinables stats |}) s
  = {| Migration.verbs := Migration.verbs s;
       Migration.substantives := n + Migration.substantives s;
       Migration.indeclinables := Migration.indeclinables s |}.
Proof.
  induction n as [| n IH]; simpl; [destruct s; reflexivity |].
  rewrite IH. reflexivity.
Qed.

Lemma iter_indeclinables (n : nat) (s : Migration.Stats) :
  Nat.iter n
    (fun stats =>
       {| Migration.verbs := Migration.verbs stats;
          Migration.substantives := Migration.substantives stats;
          Migration.indeclinables := S (Migration.indeclinables stats) |}) s
  = {| Migration.verbs := Migration.verbs s;
       Migration.substantives := Migration.substantives s;
       Migration.indeclinables := n + Migration.indeclinables s |}.
Proof.
  induction n as [| n IH]; simpl; [destruct s; reflexivity |].
  rewrite IH. reflexivity.
Qed.

(** X10.  When the three converted files can be read and no insertion is
    rejected, the run returns; the collection has gained the records of the
    rows kept, verbs first, then substantives, then indeclinables, each in the
    order of its file; and the three counters of the summary are the numbers
    of records inserted from each file. *)
Theorem up_inserts_all (readFile : jsstring -> option jsstring)
    (create_error : Store -> Data -> option jsstring) (st : Store)
    (cv cs ci : jsstring) :
  readFile (js "verbs-for-import.csv") = Some cv ->
  readFile (js "substantives-for-import.csv") = Some cs ->
  readFile (js "indeclinables-for-import.csv") = Some ci ->
  Run.accepted create_error st
    (Run.toInsert Migration.verbData cv
     ++ Run.toInsert Migration.substantiveData cs
     ++ Run.toInsert Migration.indeclinableData ci) ->
  Migration.up readFile create_error st
  = (Returned
       {| Migration.verbs := length (Run.toInsert Migration.verbData cv);
          Migration.substantives :=
            length (Run.toInsert Migration.substantiveData cs);
          Migration.indeclinables :=
            length (Run.toInsert Migration.indeclinableData ci) |},
     st ++ Run.toInsert Migration.verbData cv
        ++ Run.toInsert Migration.substantiveData cs
        ++ Run.toInsert Migration.indeclinableData ci).
Proof.
  intros Hv Hs Hi Hacc.
  apply accepted_app in Hacc as [Hav Hacc].
  apply accepted_app in Hacc as [Has Hai].
  unfold Migration.up, transaction. unfold bind at 1.
  unfold Migration.importVerbs.
  rewrite (RunCounts.import_file_count readFile create_error _ cv _ _ _ _ Hv Hav).
  unfold bind at 1. unfold Migration.importSubstantives.
  rewrite (RunCounts.import_file_count readFile create_error _ cs _ _ _ _ Hs Has).
  unfold bind at 1. unfold Migration.importIndeclinables.
  rewrite <- app_assoc in Hai.
  rewrite (RunCounts.import_file_count readFile create_error _ ci _ _ _ _ Hi).
  2:{ rewrite <- app_assoc. exact Hai. }
  unfold ret. rewrite iter_verbs, iter_substantives, iter_indeclinables.
  simpl. rewrite !Nat.add_0_r, <- !app_assoc. reflexivity.
Qed.

Lemma up_inserts_all_witness :
  let content :=
    js "word_type,word_devanagari,order_index
verb,क,1
verb,,2
verb,ग,3" in
  let readFile (name : jsstring) : option jsstring :=
    if str_eqb name (js "verbs-for-import.csv") then Some content else Some [] in
  let create_error (st : Store) (data : Data) : option jsstring := None in
  Migration.up readFile create_error []
  = (Returned
       {| Migration.verbs := length (Run.toInsert Migration.verbData content);
          Migration.substantives :=
            length (Run.toInsert Migration.substantiveData []);
          Migration.indeclinables :=
            length (Run.toInsert Migration.indeclinableData []) |},
     [] ++ Run.toInsert Migration.verbData content
        ++ Run.toInsert Migration.substantiveData []
        ++ Run.toInsert Migration.indeclinableData []).
Proof.
  intros content readFile create_error.
  apply (up_inserts_all readFile create_error [] content [] []);
    try reflexivity.
  intros p1 d p2 _. reflexivity.
Defined.

(** X11.  When one of the three converted files cannot be read, the run
    throws and the collection is left as it was, whatever was inserted from
    the files before it. *)
Theorem up_missing_file (readFile : jsstring -> option jsstring)
    (create_error : Store -> Data -> option jsstring) (st : Store) :
  readFile (js "verbs-for-import.csv") = None
  \/ readFile (js "substantives-for-import.csv") = None
  \/ readFile (js "indeclinables-for-import.csv") = None ->
  exists e, Migration.up readFile create_error st = (Thrown e, st).
Proof.
  intros Hmissing. unfold Migration.up, transaction, bind.
  destruct (RunFacts.importVerbs_run readFile create_error
              {| Migration.verbs := 0; Migration.substantives := 0;
                 Migration.indeclinables := 0 |} st) as [s1 ->].
  destruct (readFile (js "verbs-for-import.csv")) as [cv|]; [| eauto].
  destruct (Run.run_creates create_error _ st) as [[e|] st1]; [eauto |].
  destruct (RunFacts.importSubstantives_run readFile create_error s1 st1)
    as [s2 ->].
  destruct (readFile (js "substantives-for-import.csv")) as [cs|]; [| eauto].
  destruct (Run.run_creates create_error _ st1) as [[e|] st2]; [eauto |].
  destruct (RunFacts.importIndeclinables_run readFile create_error s2 st2)
    as [s3 ->].
  destruct (readFile (js "indeclinables-for-import.csv")) as [ci|]; [| eauto].
  destruct Hmissing as [H | [H | H]]; discriminate H.
Qed.

Lemma up_missing_file_witness :
  let readFile (name : jsstring) : option jsstring :=
    if str_eqb name (js "verbs-for-import.csv")
    then Some (js "word_type,word_devanagari
verb,क")
    else None in
  exists e,
    Migration.up readFile (fun _ _ => None) [] = (Thrown e, []).
Proof.
  intros readFile.
  apply (up_missing_file readFile (fun _ _ => None) []).
  right. left. reflexivity.
Defined.

(** ** The cleanup *)

Module CleanupFacts.
Import Cleanup.

Section CleanupFacts.

Variable delete_error : Collection -> N -> option jsstring.
Hypothesis never_rejected : forall coll id, delete_error coll id = None.

(** The entries whose id is none of [ids]. *)
Lemma filter_filter_id (id : N) (entries coll : Collection) :
  List.filter
    (fun entry : N * Data => negb (existsb (N.eqb (fst entry)) (map fst entries)))
    (List.filter (fun entry : N * Data => negb (fst entry =? id)) coll)
  = List.filter
      (fun entry : N * Data =>
         negb (existsb (N.eqb (fst entry)) (id :: map fst entries)))
      coll.
Proof.
  induction coll as [| e coll IH]; simpl; [reflexivity |].
  destruct (fst e =? id); simpl; [exact IH |].
  destruct (existsb _ _); simpl; [exact IH | rewrite IH; reflexivity].
Qed.

Lemma for_of_delete_count (entries : Collection) :
  forall (deleted : nat) (coll : Collection),
    for_of entries
      (fun entry deleted =>
         bind (delete delete_error (fst entry)) (fun _ => ret (S deleted)))
      deleted coll
    = (Returned (length entries + deleted)%nat,
       List.filter
         (fun entry : N * Data =>
            negb (existsb (N.eqb (fst entry)) (map fst entries)))
         coll).
Proof.
  induction entries as [| e entries IH]; intros deleted coll.
  - simpl. unfold ret. f_equal. symmetry. apply filter_all.
    apply Forall_forall. reflexivity.
  - cbn [for_of]. unfold bind at 1. unfold bind at 1, delete at 1.
    rewrite never_rejected. unfold ret at 1. rewrite IH.
    cbn [map length]. rewrite filter_filter_id. f_equal. f_equal. lia.
Qed.

Lemma for_of_delete_unit (entries : Collection) :
  forall coll : Collection,
    for_of entries (fun entry (_ : unit) => delete delete_error (fst entry))
      tt coll
    = (Returned tt,
       List.filter
         (fun entry : N * Data =>
            negb (existsb (N.eqb (fst entry)) (map fst entries)))
         coll).
Proof.
  induction entries as [| e entries IH]; intros coll.
  - simpl. unfold ret. f_equal. symmetry. apply filter_all.
    apply Forall_forall. reflexivity.
  - cbn [for_of]. unfold bind at 1, delete at 1.
    rewrite never_rejected. rewrite IH.
    cbn [map]. rewrite filter_filter_id. reflexivity.
Qed.

Lemma filter_own_ids (coll : Collection) :
  List.filter
    (fun entry : N * Data => negb (existsb (N.eqb (fst entry)) (map fst coll)))
    coll
  = [].
Proof.
  assert (H : forall ids : list N,
            (forall e, In e coll -> In (fst e) ids) ->
            List.filter
              (fun entry : N * Data => negb (existsb (N.eqb (fst entry)) ids))
              coll = []).
  { intros ids. induction coll as [| e coll IH]; intros Hids; simpl;
      [reflexivity |].
    assert (He : existsb (N.eqb (fst e)) ids = true).
    { apply existsb_exists. exists (fst e).
      split; [apply Hids; left; reflexivity | apply N.eqb_refl]. }
    rewrite He. simpl. apply IH. intros e' He'. apply Hids. right. exact He'. }
  apply H. intros e He. apply in_map. exact He.
Qed.

Lemma up_empties (coll : Collection) :
  up delete_error coll = (Returned (length coll), []).
Proof.
  unfold up, transaction, bind, findMany.
  rewrite for_of_delete_count, filter_own_ids, Nat.add_0_r. reflexivity.
Qed.

Lemma importDown_empties (coll : Collection) :
  importDown delete_error coll = (Returned (length coll), []).
Proof.
  unfold importDown, transaction, findMany. unfold bind at 1. unfold bind at 1.
  rewrite for_of_delete_unit, filter_own_ids. reflexivity.
Qed.

End CleanupFacts.
End CleanupFacts.

(** X12.  The cleanup, and [down] of the import migration, empty the
    collection when no deletion is rejected, whatever it held, and report the
    number of entries it held; when they throw, the collection is left as it
    was. *)
Theorem cleanup_all_or_nothing
    (delete_error : Cleanup.Collection -> N -> option jsstring)
    (coll : Cleanup.Collection) :
  ((forall c id, delete_error c id = None) ->
   Cleanup.up delete_error coll = (Returned (length coll), [])
   /\ Cleanup.importDown delete_error coll = (Returned (length coll), []))
  /\ (forall e coll',
        Cleanup.up delete_error coll = (Thrown e, coll')
        \/ Cleanup.importDown delete_error coll = (Thrown e, coll') ->
        coll' = coll).
Proof.
  split.
  - intros Hnever. split;
      [apply CleanupFacts.up_empties | apply CleanupFacts.importDown_empties];
      exact Hnever.
  - intros e coll' [H | H].
    + unfold Cleanup.up, Cleanup.transaction in H.
      destruct (Cleanup.bind _ _ coll) as [[n | e'] c]; congruence.
    + unfold Cleanup.importDown, Cleanup.transaction in H.
      destruct (Cleanup.bind _ _ coll) as [[n | e'] c]; congruence.
Qed.

Lemma cleanup_all_or_nothing_witness :
  let coll : Cleanup.Collection :=
    [ (1, [(js "word_devanagari", VString (js "क"))]);
      (2, [(js "word_devanagari", VString (js "ख"))]);
      (3, [(js "word_devanagari", VString (js "ग"))]) ] in
  (Cleanup.up (fun _ _ => None) coll = (Returned (length coll), [])
   /\ Cleanup.importDown (fun _ _ => None) coll = (Returned (length coll), []))
  /\ Cleanup.up (fun _ id => if id =? 2 then Some (js "rejected") else None) coll
     = (Thrown (js "rejected"), coll).
Proof.
  intros coll. split.
  - apply (proj1 (cleanup_all_or_nothing (fun _ _ => None) coll)).
    reflexivity.
  - destruct (Cleanup.up (fun _ id => if id =? 2 then Some (js "rejected") else None)
                coll) as [o c] eqn:Hup.
    assert (Ho : o = Thrown (js "rejected"))
      by (apply (f_equal fst) in Hup; symmetry; exact Hup).
    subst o. f_equal.
    apply (proj2 (cleanup_all_or_nothing
                    (fun _ id => if id =? 2 then Some (js "rejected") else None)
                    coll)
             (js "rejected") c).
    left. exact Hup.
Defined.

(** ** The two scripts together *)

(** X13.  The columns of the converted files are the properties of the
    converted records and the properties the migration stores: for each of the
    three kinds the header list has no name twice, every converted record has
    exactly the headers as fields, and the data handed to [create] has the
    same names in the same order (21, 12 and 11 of them). *)
Theorem converted_columns :
  (NoDup Convert.verbsHeaders /\ length Convert.verbsHeaders = 21%nat
   /\ (forall unicode_upper row i,
         dom (Convert.convertVerb unicode_upper row i)
         = list_to_set Convert.verbsHeaders)
   /\ (forall row, (Migration.verbData row).*1 = Convert.verbsHeaders))
  /\ (NoDup Convert.substantivesHeaders
      /\ length Convert.substantivesHeaders = 12%nat
      /\ (forall row i,
            dom (Convert.convertSubstantive row i)
            = list_to_set Convert.substantivesHeaders)
      /\ (forall row,
            (Migration.substantiveData row).*1 = Convert.substantivesHeaders))
  /\ (NoDup Convert.indeclinablesHeaders
      /\ length Convert.indeclinablesHeaders = 11%nat
      /\ (forall row i,
            dom (Convert.convertIndeclinable row i)
            = list_to_set Convert.indeclinablesHeaders)
      /\ (forall row,
            (Migration.indeclinableData row).*1
            = Convert.indeclinablesHeaders)).
Proof.
  split; [| split].
  - split; [apply (bool_decide_unpack _); vm_compute; exact I |].
    split; [reflexivity |]. split; [| reflexivity].
    intros uu row i. unfold Convert.convertVerb, Convert.object.
    rewrite dom_list_to_map_L. reflexivity.
  - split; [apply (bool_decide_unpack _); vm_compute; exact I |].
    split; [reflexivity |]. split; [| reflexivity].
    intros row i. unfold Convert.convertSubstantive, Convert.object.
    rewrite dom_list_to_map_L. reflexivity.
  - split; [apply (bool_decide_unpack _); vm_compute; exact I |].
    split; [reflexivity |]. split; [| reflexivity].
    intros row i. unfold Convert.convertIndeclinable, Convert.object.
    rewrite dom_list_to_map_L. reflexivity.
Qed.

Lemma undefined_if_empty_constant (s : jsstring) :
  truthy s = true -> undefined_if_empty s = Some s.
Proof. unfold undefined_if_empty. intros ->. reflexivity. Qed.

(** X14.  The field mappers of the two scripts agree up to their empty
    value: what the migration's [cleanText], [mapVoice], [mapGender] and
    [determineSubtype] return is what the convert script's return, with
    [undefined] in place of the empty string. *)
Theorem mappers_agree (unicode_upper : jsstring -> jsstring)
    (x : option jsstring) :
  Migration.cleanText x = undefined_if_empty (Convert.cleanText x)
  /\ Migration.mapVoice unicode_upper x
     = undefined_if_empty (Convert.mapVoice unicode_upper x)
  /\ Migration.mapGender x = undefined_if_empty (Convert.mapGender x)
  /\ Migration.determineSubtype x
     = undefined_if_empty (Convert.determineSubtype x).
Proof.
  split; [| split; [| split]].
  - unfold Migration.cleanText, Convert.cleanText.
    destruct x as [t|]; [| reflexivity].
    destruct (negb (truthy t) || str_eqb t (js "—") || str_eqb t (js "-")
              || str_eqb (trim t) []) eqn:Hg; [reflexivity |].
    apply orb_false_iff in Hg as [_ Ht]. apply str_eqb_neq in Ht.
    symmetry. apply undefined_if_empty_constant, truthy_true, Ht.
  - unfold Migration.mapVoice, Convert.mapVoice. cbv zeta.
    repeat (destruct (opt_eqb _ _); [reflexivity |]). reflexivity.
  - unfold Migration.mapGender, Convert.mapGender.
    repeat (destruct (opt_eqb _ _); [reflexivity |]). reflexivity.
  - unfold Migration.determineSubtype, Convert.determineSubtype.
    repeat (destruct (opt_eqb _ _); [reflexivity |]).
    destruct (existsb _ _); reflexivity.
Qed.

Lemma cleanText_twice (text : option jsstring) :
  (forall t, text = Some t -> trim t = t) ->
  Migration.cleanText (Some (Convert.cleanText text)) = Migration.cleanText text.
Proof.
  intros Htrim. destruct text as [t|]; [| reflexivity].
  unfold Convert.cleanText.
  destruct (negb (truthy t) || str_eqb t (js "—") || str_eqb t (js "-")
            || str_eqb (trim t) []) eqn:Hg.
  - unfold Migration.cleanText at 2. rewrite Hg. reflexivity.
  - rewrite (Htrim t eq_refl). reflexivity.
Qed.

Lemma stored_text (data : Data) (record row : Row) (f h : jsstring) :
  cleanRow row ->
  data_get f data = Migration.val (Migration.cleanText (record !! f)) ->
  record !! f = Some (Convert.cleanText (row !! h)) ->
  data_get f data = Migration.val (Migration.cleanText (row !! h)).
Proof.
  intros Hrow -> ->. f_equal. apply cleanText_twice.
  intros t Ht. apply (Hrow h t Ht).
Qed.

(** X15.  The text fields stored are the cleaned columns of the spreadsheet:
    for a row the parser returned, the record the migration makes of the
    converted record has, in each text field, the column of the spreadsheet it
    comes from, cleaned, [undefined] when that is empty. *)
Theorem stored_text_fields (unicode_upper : jsstring -> jsstring)
    (content : jsstring) (row : Row) (i : nat) (f h : jsstring) :
  row ∈ Convert.parseCSV content ->
  ((f, h) ∈ verbTextFields ->
   data_get f (Migration.verbData (Convert.convertVerb unicode_upper row i))
   = Migration.val (Migration.cleanText (row !! h)))
  /\ ((f, h) ∈ substantiveTextFields ->
      data_get f (Migration.substantiveData (Convert.convertSubstantive row i))
      = Migration.val (Migration.cleanText (row !! h)))
  /\ ((f, h) ∈ indeclinableTextFields ->
      data_get f
        (Migration.indeclinableData (Convert.convertIndeclinable row i))
      = Migration.val (Migration.cleanText (row !! h))).
Proof.
  intros Hin.
  assert (Hrow : cleanRow row).
  { pose proof (parseCSV_clean content) as Hall.
    rewrite Forall_forall in Hall. exact (Hall row Hin). }
  split; [| split]; intros Hf.
  - unfold verbTextFields in Hf. each_field Hf;
      (eapply stored_text; [exact Hrow | reflexivity | reflexivity]).
  - unfold substantiveTextFields in Hf. each_field Hf;
      (eapply stored_text; [exact Hrow | reflexivity | reflexivity]).
  - unfold indeclinableTextFields in Hf. each_field Hf;
      (eapply stored_text; [exact Hrow | reflexivity | reflexivity]).
Qed.

Lemma stored_text_fields_witness :
  let content := js "धातु,Inglés
गम्,  to go " in
  let row : Row := {[ js "धातु" := js "गम्"; js "Inglés" := js "to go" ]} in
  data_get (js "meaning_en")
    (Migration.verbData (Convert.convertVerb (fun s => s) row 0))
  = Migration.val (Migration.cleanText (row !! js "Inglés")).
Proof.
  intros content row.
  apply (proj1 (stored_text_fields (fun s => s) content row 0
                  (js "meaning_en") (js "Inglés")
                  ltac:(vm_compute; apply list_elem_of_here))).
  unfold verbTextFields. do 4 apply list_elem_of_further.
  apply list_elem_of_here.
Defined.

Lemma cleanText_mapVoice (unicode_upper : jsstring -> jsstring)
    (pada : option jsstring) :
  Migration.cleanText (Some (Convert.mapVoice unicode_upper pada))
  = Migration.mapVoice unicode_upper pada.
Proof.
  unfold Migration.mapVoice, Convert.mapVoice. cbv zeta.
  repeat (destruct (opt_eqb _ _); [reflexivity |]). reflexivity.
Qed.

Lemma cleanText_mapGender (linga : option jsstring) :
  Migration.cleanText (Some (Convert.mapGender linga))
  = Migration.mapGender linga.
Proof.
  unfold Migration.mapGender, Convert.mapGender.
  repeat (destruct (opt_eqb _ _); [reflexivity |]). reflexivity.
Qed.

Lemma cleanText_determineSubtype (linga : option jsstring) :
  Migration.cleanText (Some (Convert.determineSubtype linga))
  = Migration.determineSubtype linga.
Proof.
  unfold Migration.determineSubtype, Convert.determineSubtype.
  repeat (destruct (opt_eqb _ _); [reflexivity |]).
  destruct (existsb _ _); reflexivity.
Qed.

(** X16.  The coded fields stored follow the spreadsheet: the record made of
    a converted verb has the voice [mapVoice] gives for the voice column, the
    class column read as a number unless it is missing, empty or a dash, the
    type [verb] and the published flag set; the record made of a converted
    substantive has the subtype and the gender that [determineSubtype] and
    [mapGender] give for the gender column. *)
Theorem stored_coded_fields (unicode_upper : jsstring -> jsstring)
    (row : Row) (i : nat) :
  (let data :=
     Migration.verbData (Convert.convertVerb unicode_upper row i) in
   data_get (js "word_type") data = VString (js "verb")
   /\ data_get (js "word_devanagari") data
      = VString (Convert.cleanText (row !! js "धातु"))
   /\ data_get (js "voice") data
      = Migration.val (Migration.mapVoice unicode_upper (row !! js "पद"))
   /\ data_get (js "verb_class") data
      = (if truthy (or_empty (row !! js "गण"))
            && negb (opt_eqb (row !! js "गण") (js "-"))
         then VNumber (parseInt (or_empty (row !! js "गण")))
         else VUndefined)
   /\ data_get (js "is_published") data = VBoolean true)
  /\ (let data :=
        Migration.substantiveData (Convert.convertSubstantive row i) in
      data_get (js "word_type") data = VString (js "substantive")
      /\ data_get (js "word_subtype") data
         = Migration.val (Migration.determineSubtype (row !! js "लिङ्ग"))
      /\ data_get (js "gender") data
         = Migration.val (Migration.mapGender (row !! js "लिङ्ग"))
      /\ data_get (js "is_published") data = VBoolean true)
  /\ (let data :=
        Migration.indeclinableData (Convert.convertIndeclinable row i) in
      data_get (js "word_type") data = VString (js "indeclinable")
      /\ data_get (js "is_published") data = VBoolean true).
Proof.
  split; [| split]; cbv zeta.
  - split; [reflexivity |]. split; [reflexivity |]. split; [| split];
      [| | reflexivity].
    + transitivity
        (Migration.val
           (Migration.cleanText
              (Some (Convert.mapVoice unicode_upper (row !! js "पद")))));
        [reflexivity | rewrite cleanText_mapVoice; reflexivity].
    + transitivity
        (Migration.parseInt_or_undefined
           (Some (if truthy (or_empty (row !! js "गण"))
                     && negb (opt_eqb (row !! js "गण") (js "-"))
                  then or_empty (row !! js "गण") else [])));
        [reflexivity |].
      unfold Migration.parseInt_or_undefined.
      destruct (truthy (or_empty (row !! js "गण"))) eqn:Ht; [| reflexivity].
      destruct (opt_eqb (row !! js "गण") (js "-")); [reflexivity |].
      simpl andb. cbv iota. rewrite or_empty_Some, Ht. reflexivity.
  - split; [reflexivity |]. split; [| split]; [| | reflexivity].
    + transitivity
        (Migration.val
           (Migration.cleanText
              (Some (Convert.determineSubtype (row !! js "लिङ्ग")))));
        [reflexivity | rewrite cleanText_determineSubtype; reflexivity].
    + transitivity
        (Migration.val
           (Migration.cleanText
              (Some (Convert.mapGender (row !! js "लिङ्ग")))));
        [reflexivity | rewrite cleanText_mapGender; reflexivity].
  - split; reflexivity.
Qed.

(** ** The text [arrayToCSV] writes *)




(** ** Gender and subtype *)

(** X18.  A code has a gender exactly when it is the code of a noun:
    [mapGender] gives a gender for [m], [f] and [n] and for nothing else,
    and these are the codes [determineSubtype] calls nouns; the codes of
    adjectives and pronouns have no gender.  The codes are matched as they
    are, so an upper-case [M] has neither gender nor subtype. *)
Theorem gender_iff_noun (x : option jsstring) :
  (Convert.mapGender x <> [] <-> Convert.determineSubtype x = js "noun")
  /\ (Convert.mapGender x <> []
      <-> x = Some (js "m") \/ x = Some (js "f") \/ x = Some (js "n"))
  /\ (Convert.determineSubtype x = js "adjective" <-> x = Some (js "a"))
  /\ (Convert.determineSubtype x = js "pronoun" <-> x = Some (js "p"))
  /\ Convert.mapGender (Some (js "M")) = []
  /\ Convert.determineSubtype (Some (js "M")) = [].
Proof.
  unfold Convert.mapGender, Convert.determineSubtype. simpl existsb.
  destruct (opt_eqb x (js "a")) eqn:Ha;
    [apply opt_eqb_eq in Ha; subst x; simpl;
     repeat split; try tauto; try discriminate; try congruence;
     intros [H | [H | H]]; discriminate H |].
  destruct (opt_eqb x (js "p")) eqn:Hp;
    [apply opt_eqb_eq in Hp; subst x; simpl;
     repeat split; try tauto; try discriminate; try congruence;
     intros [H | [H | H]]; discriminate H |].
  apply opt_eqb_neq in Ha, Hp.
  destruct (opt_eqb x (js "m")) eqn:Hm;
    [apply opt_eqb_eq in Hm; subst x; simpl;
     repeat split; try tauto; try discriminate; try congruence |].
  destruct (opt_eqb x (js "f")) eqn:Hf;
    [apply opt_eqb_eq in Hf; subst x; simpl;
     repeat split; try tauto; try discriminate; try congruence |].
  destruct (opt_eqb x (js "n")) eqn:Hn;
    [apply opt_eqb_eq in Hn; subst x; simpl;
     repeat split; try tauto; try discriminate; try congruence |].
  apply opt_eqb_neq in Hm, Hf, Hn. simpl.
  repeat split; try tauto; try discriminate; try congruence.
Qed.

Lemma gender_iff_noun_witness :
  Convert.determineSubtype (Some (js "n")) = js "noun".
Proof.
  apply (proj1 (proj1 (gender_iff_noun (Some (js "n"))))). discriminate.
Defined.
